(** * BITS HD admissions dashboard: loader, mode splitter, filter engine,
    aggregator and page script of [app.py], and the converter of [main.py]

    Conventions of the model.
    - A pandas float is the rational it denotes ([Qc], canonical rationals, so
      that equal numbers are equal terms); binary rounding and overflow of
      IEEE doubles are not modelled.
    - A Python [str] is a [string] of bytes; [\d] is read as the ASCII digits
      and whitespace as ASCII whitespace.  Strings compare byte by byte, which
      on UTF-8 text is the order of the code points.
    - A [DataFrame] is a list of column labels with a list of rows; a row is
      a finite map from labels to cells.  Two rows are the same row when they
      agree under every label; cells are compared as terms, so [nan] is equal
      to [nan], as [drop_duplicates] has it.
    - A Series operation is written for one cell and mapped over the column;
      [astype(str)] is [str] of every cell.
    - An exception is a result in an error monad; the Streamlit calls of the
      script are recorded, in order, in a trace.
    - Python strings are Unicode and pandas floats are doubles.  Where that
      can make a difference to what a theorem says, the theorem names the
      inputs it is about: [plain_text] and [short_decimal] for texts,
      [text_field] for fields without nulls, [exact_mean] and
      [whole_scores] for the scores under a mean.

    The file has four parts: the program, the vocabulary of its
    specification with the sample inputs, the proofs of the specified
    behaviour, and further properties of the code. *)

From Stdlib Require Import Ascii QArith Qcanon Qround Lqa.
From stdpp Require Import gmap strings list sorting numbers pretty.

(** * Part I: the program *)

(** ** Cells *)

Abbreviation float := Qc.

(** What a cell of a frame can hold: Python [None], the float [nan] pandas
    uses for a missing entry, booleans, integers, floats and strings. *)
Inductive value :=
  | VNone
  | VNaN
  | VBool (b : bool)
  | VInt (n : Z)
  | VFloat (x : float)
  | VStr (s : string).

Global Instance value_eq_dec : EqDecision value.
Proof. solve_decision. Defined.

Global Instance value_inhabited : Inhabited value := populate VNaN.

(** ** Exceptions *)

Inductive exn :=
  | FileNotFoundError
  | KeyError (k : string)
  | ValueError
  | TypeError
  | AttributeError
  | DuplicateLabels.   (* two columns of one label: outside this model *)

Inductive result (A : Type) :=
  | Ok (a : A)
  | Raise (e : exn).

Arguments Ok {A} a.
Arguments Raise {A} e.

Global Instance exn_eq_dec : EqDecision exn.
Proof. solve_decision. Defined.

Global Instance result_eq_dec {A} `{EqDecision A} : EqDecision (result A).
Proof. solve_decision. Defined.

Global Instance result_ret : MRet result := λ A a, Ok a.

Global Instance result_bind : MBind result := λ A B f m,
  match m with
  | Ok a => f a
  | Raise e => Raise e
  end.

Global Instance result_fmap : FMap result := λ A B f m,
  match m with
  | Ok a => Ok (f a)
  | Raise e => Raise e
  end.

Definition Qc_max (x y : float) : float := if decide (x ≤ y)%Qc then y else x.

Definition Qc_min (x y : float) : float := if decide (x ≤ y)%Qc then x else y.

(** ** Python's [re], restricted to the operators the source pattern uses *)

Module Re.

(** One character position of a pattern. *)
Inductive atom :=
  | Digit                (* \d *)
  | Lit (c : ascii).     (* an escaped or plain literal character *)

Inductive quant :=
  | One                  (* no suffix *)
  | Opt                  (* ? *)
  | Star                 (* * *)
  | Plus.                (* + *)

Definition regex := list (atom * quant).

(** [\d] on ASCII text: the ten digits.  Python's [\d] also matches the
    decimal digits of other scripts; theorems about the text a match
    consists of are stated for [plain_text]. *)
Definition is_digit (c : ascii) : bool :=
  bool_decide (48 ≤ nat_of_ascii c ≤ 57)%nat.

Definition atom_matches (a : atom) (c : ascii) : bool :=
  match a with
  | Digit => is_digit c
  | Lit d => bool_decide (c = d)
  end.

(** [a*] followed by the continuation [k]: greedy, and backtracking to a
    shorter run when the continuation fails.  A result is the matched text
    and the unread rest. *)
Fixpoint star_here (k : string → option (string * string)) (a : atom)
    (s : string) : option (string * string) :=
  match s with
  | String c s' =>
      if atom_matches a c then
        match star_here k a s' with
        | Some (m, r) => Some (String c m, r)
        | None => k s
        end
      else k s
  | EmptyString => k s
  end.

Definition one_here (k : string → option (string * string)) (a : atom)
    (s : string) : option (string * string) :=
  match s with
  | String c s' =>
      if atom_matches a c then
        match k s' with
        | Some (m, r) => Some (String c m, r)
        | None => None
        end
      else None
  | EmptyString => None
  end.

(** Match the pattern at the start of the string. *)
Fixpoint match_here (re : regex) : string → option (string * string) :=
  match re with
  | [] => λ s, Some (EmptyString, s)
  | (a, q) :: re' =>
      let k := match_here re' in
      match q with
      | One => one_here k a
      | Opt => λ s, match one_here k a s with
                    | Some res => Some res
                    | None => k s
                    end
      | Star => star_here k a
      | Plus => one_here (star_here k a) a
      end
  end.

(** [re.search]: the match at the leftmost position that has one. *)
Fixpoint search (re : regex) (s : string) : option string :=
  match match_here re s with
  | Some (m, _) => Some m
  | None =>
      match s with
      | EmptyString => None
      | String _ s' => search re s'
      end
  end.

End Re.

(** ** Series operations used by [clean_numeric] *)

(** The pattern of [clean_numeric]: one group around [\d+], [\.?], [\d*];
    the group spans the whole match. *)
Definition pattern : Re.regex :=
  [(Re.Digit, Re.Plus); (Re.Lit ".", Re.Opt); (Re.Digit, Re.Star)].

Definition digit_val (c : ascii) : N := N.of_nat (nat_of_ascii c - 48).

(** Read a run of digits: the number read so far, how many digits were
    read, and the rest of the string. *)
Fixpoint take_digits (acc : N) (cnt : nat) (s : string) : N * nat * string :=
  match s with
  | String c s' =>
      if Re.is_digit c then take_digits (10 * acc + digit_val c) (S cnt) s'
      else (acc, cnt, s)
  | EmptyString => (acc, cnt, s)
  end.

(** The number [n / 10^k]. *)
Definition decimal (n : N) (k : nat) : float :=
  Q2Qc (Z.of_N n # Z.to_pos (10 ^ Z.of_nat k)).

(** String to number, for the unsigned positional literals [digits],
    [digits.] and [digits.digits].  Any other text is not a number here:
    signs, exponents and the special names never reach this function from
    [clean_numeric].  The result is the number the literal denotes; pandas
    holds the double nearest to it, which is written like the literal when
    the literal has at most fifteen digits ([short_decimal]). *)
Definition to_double (s : string) : option float :=
  let '(n1, k1, r1) := take_digits 0 0 s in
  match k1 with
  | O => None
  | S _ =>
      match r1 with
      | EmptyString => Some (decimal n1 0)
      | String c r2 =>
          if bool_decide (c = "."%char) then
            let '(n2, k2, r3) := take_digits n1 0 r2 in
            match r3 with
            | EmptyString => Some (decimal n2 k2)
            | String _ _ => None
            end
          else None
      end
  end.

Section loader.

(** Python's [repr] of a float (the shortest text that reads back as the
    same double) has no counterpart on exact rationals; it is a parameter
    of the development. *)
Variable float_repr : float → string.

(** [str(v)] *)
Definition py_str (v : value) : string :=
  match v with
  | VNone => "None"
  | VNaN => "nan"
  | VBool true => "True"
  | VBool false => "False"
  | VInt n => pretty n
  | VFloat x => float_repr x
  | VStr s => s
  end.

(** [s.astype(str)], one cell of a column of dtype object: a missing cell
    becomes the text ["None"] or ["nan"].  With the string dtype of
    pandas 3 a missing cell stays missing; theorems about the texts of a
    column are stated for fields that hold a string in every record
    ([text_field]). *)
Definition astype_str (v : value) : value := VStr (py_str v).

(** [s.str.extract(pat)[0]], one cell: the first group of the first match,
    [nan] when there is none or the cell is not a string. *)
Definition str_extract (re : Re.regex) (v : value) : value :=
  match v with
  | VStr s =>
      match Re.search re s with
      | Some m => VStr m
      | None => VNaN
      end
  | _ => VNaN
  end.

(** [pd.to_numeric(s, errors="coerce")], one cell *)
Definition to_numeric_coerce (v : value) : value :=
  match v with
  | VStr s =>
      match to_double s with
      | Some x => VFloat x
      | None => VNaN
      end
  | VBool b => VInt (if b then 1 else 0)
  | VNone => VNaN
  | _ => v
  end.

(** [s.fillna(x)], one cell *)
Definition fillna (x : float) (v : value) : value :=
  match v with
  | VNone | VNaN => VFloat x
  | _ => v
  end.

(** [s.astype(float)], one cell; text that is not a number raises. *)
Definition astype_float (v : value) : result value :=
  match v with
  | VNone | VNaN => Ok VNaN
  | VBool b => Ok (VFloat (Qc_of_Z (if b then 1 else 0)))
  | VInt n => Ok (VFloat (Qc_of_Z n))
  | VFloat x => Ok (VFloat x)
  | VStr s =>
      match to_double s with
      | Some x => Ok (VFloat x)
      | None => Raise ValueError
      end
  end.

Definition clean_numeric (s : list value) : result (list value) :=
  mapM astype_float
    (fillna 0 <$> (to_numeric_coerce <$> (str_extract pattern <$> (astype_str <$> s)))).

End loader.

(** ** Data frames *)

Abbreviation row := (gmap string value).

Record DataFrame := mkDF { columns : list string; rows : list row }.

Global Instance DataFrame_eq_dec : EqDecision DataFrame.
Proof. solve_decision. Defined.

(** The cell of a row under a label, [nan] when the row has none. *)
Definition cell (r : row) (c : string) : value := default VNaN (r !! c).

(** The labels of a list of dicts: the keys of its records. *)
Definition labels_of (raw : list row) : gset string := ⋃ (dom <$> raw).

(** [pd.DataFrame(raw)] for a list of dicts: the labels are the keys that
    occur in any record, and a record without a key holds [nan] there.  (The
    order of the labels is not modelled.) *)
Definition DataFrame_of_records (raw : list row) : DataFrame :=
  mkDF (elements (labels_of raw))
       ((λ r, r ∪ gset_to_gmap VNaN (labels_of raw)) <$> raw).

Definition relabel_row (f : string → string) (r : row) : row :=
  list_to_map (prod_map f id <$> map_to_list r).

(** Relabel the columns by [f], as [df.columns = ...] and [df.rename] do.
    Frames with two columns under one label are not modelled. *)
Definition relabel (f : string → string) (df_ : DataFrame) : result DataFrame :=
  if decide (NoDup (f <$> columns df_)) then
    Ok (mkDF (f <$> columns df_) (relabel_row f <$> rows df_))
  else Raise DuplicateLabels.

(** [df_[c]] *)
Definition getitem (df_ : DataFrame) (c : string) : result (list value) :=
  if decide (c ∈ columns df_) then Ok ((λ r, cell r c) <$> rows df_)
  else Raise (KeyError c).

(** [df_[c] = s] *)
Definition setitem (df_ : DataFrame) (c : string) (s : list value) : result DataFrame :=
  if decide (length s = length (rows df_)) then
    Ok (mkDF (if decide (c ∈ columns df_) then columns df_ else columns df_ ++ [c])
             (zip_with (λ r v, <[c:=v]> r) (rows df_) s))
  else Raise ValueError.

(** [df_[mask]] *)
Definition getitem_mask (df_ : DataFrame) (mask : list bool) : DataFrame :=
  mkDF (columns df_) ((filter (λ p, p.2 = true) (zip (rows df_) mask)).*1).

(** Python's [str.isspace] on ASCII.  The whitespace Unicode has outside
    ASCII is not modelled; theorems about what is stripped from a field are
    stated for [plain_text]. *)
Definition is_space (c : ascii) : bool :=
  let n := nat_of_ascii c in
  bool_decide (9 ≤ n ≤ 13 ∨ 28 ≤ n ≤ 32)%nat.

Fixpoint lstrip (s : string) : string :=
  match s with
  | String c s' => if is_space c then lstrip s' else s
  | EmptyString => s
  end.

(** [s.strip()] *)
Definition strip (s : string) : string :=
  String.rev (lstrip (String.rev (lstrip s))).

(** [s.str.strip()], one cell *)
Definition str_strip (v : value) : value :=
  match v with
  | VStr s => VStr (strip s)
  | _ => VNaN
  end.

(** One row of [frame.max(axis=1)]: the largest number among the cells,
    [nan] cells skipped. *)
Fixpoint max_cells (acc : value) (l : list value) : result value :=
  match l with
  | [] => Ok acc
  | v :: l' =>
      match v with
      | VNaN => max_cells acc l'
      | VFloat x =>
          match acc with
          | VFloat a => max_cells (VFloat (Qc_max a x)) l'
          | _ => max_cells (VFloat x) l'
          end
      | _ => Raise TypeError
      end
  end.

(** [df_[cols].max(axis=1)] *)
Definition max_axis1 (df_ : DataFrame) (cols : list string) : result (list value) :=
  _ ← mapM (getitem df_) cols;
  mapM (λ r, max_cells VNaN (cell r <$> cols)) (rows df_).

(** ** The loader *)

Definition rename_table : gmap string string :=
  list_to_map
    [("GATE or GPAT score (if not through GATE/GPAT then put 0)", "GATE Score");
     ("BITS HD Marks Scored in (Paper 1+ Paper 2) for Core Engineering disciple (CS/MECH/CIVIL/IT/BIOTECH/ECE/ETC/EE)  (Enter 0 if not applicable)", "HD Core");
     ("BITS HD test marks (Paper 1 + Software systems) for  Software System only (SS) (Enter 0 if not applicable)", "HD SS");
     ("For which ME / M.Pharm branch you got provisionally shortlisted at BITS ?", "ME Branch");
     ("Which campus did you get admission (choose - not applicable if you did not get admission)", "Campus")].

Definition rename (c : string) : string := default c (rename_table !! c).

(** The files of the working directory, each by the JSON array it decodes
    to ([json.load] itself is not modelled). *)
Abbreviation filesystem := (gmap string (list row)).

Definition DATA_PATH : string := "bits_hd_2024_clean.json".

Section load.

Variable float_repr : float → string.

(** The body of the loop over ["ME Branch"] and ["Campus"]. *)
Definition strip_column (df_ : DataFrame) (col : string) : result DataFrame :=
  if decide (col ∈ columns df_) then
    s ← getitem df_ col;
    setitem df_ col (str_strip <$> (astype_str float_repr <$> s))
  else Ok df_.

Definition clean_column (df_ : DataFrame) (col : string) : result DataFrame :=
  s ← getitem df_ col;
  s ← clean_numeric float_repr s;
  setitem df_ col s.

Definition load_data (fs : filesystem) (path : string) : result DataFrame :=
  raw ← from_option Ok (Raise FileNotFoundError) (fs !! path);
  let df_ := DataFrame_of_records raw in
  df_ ← relabel strip df_;
  df_ ← relabel rename df_;
  df_ ← clean_column df_ "GATE Score";
  df_ ← clean_column df_ "HD Core";
  df_ ← clean_column df_ "HD SS";
  s ← max_axis1 df_ ["HD Core"; "HD SS"];
  df_ ← setitem df_ "HD Score" s;
  df_ ← strip_column df_ "ME Branch";
  strip_column df_ "Campus".

End load.

(** ** Comparisons and masks *)

(** A cell as a number, for the numeric comparisons. *)
Definition as_num (v : value) : option float :=
  match v with
  | VBool b => Some (Qc_of_Z (if b then 1 else 0))
  | VInt n => Some (Qc_of_Z n)
  | VFloat x => Some x
  | _ => None
  end.

(** [v > x], one cell: [nan] compares false, text and [None] raise. *)
Definition cell_gt (x : float) (v : value) : result bool :=
  match v with
  | VNaN => Ok false
  | VNone | VStr _ => Raise TypeError
  | _ => Ok (bool_decide (x < default 0%Qc (as_num v))%Qc)
  end.

(** [s > x] *)
Definition series_gt (s : list value) (x : float) : result (list bool) :=
  mapM (cell_gt x) s.

(** [v == w], one cell: numbers by value, strings by content, anything else
    unequal. *)
Definition cell_eq (w v : value) : bool :=
  match as_num v, as_num w with
  | Some x, Some y => bool_decide (x = y)
  | None, None =>
      match v, w with
      | VStr s, VStr t => bool_decide (s = t)
      | _, _ => false
      end
  | _, _ => false
  end.

(** [s == w] *)
Definition series_eq (s : list value) (w : value) : list bool := cell_eq w <$> s.

(** [s.isin(l)] for a list of strings *)
Definition series_isin (s : list value) (l : list string) : list bool :=
  (λ v, bool_decide (v ∈ VStr <$> l)) <$> s.

(** [m1 & m2] *)
Definition mask_and (m1 m2 : list bool) : list bool := zip_with andb m1 m2.

(** Of equal entries the first stays. *)
Fixpoint keep_first {A} `{EqDecision A} (l : list A) : list A :=
  match l with
  | [] => []
  | x :: l' => x :: filter (λ y, y ≠ x) (keep_first l')
  end.

(** [df_.drop_duplicates()]: rows are duplicates when equal in every
    column. *)
Definition drop_duplicates (df_ : DataFrame) : DataFrame :=
  mkDF (columns df_) (keep_first (rows df_)).

(** ** The mode splitter *)

Definition split_modes (df_ : DataFrame) : result (DataFrame * DataFrame) :=
  g ← getitem df_ "GATE Score";
  m ← series_gt g 0;
  let gate_df_ := drop_duplicates (getitem_mask df_ m) in
  g ← getitem df_ "GATE Score";
  let m1 := series_eq g (VInt 0) in
  h ← getitem df_ "HD Score";
  m2 ← series_gt h 0;
  let hd_df_ := drop_duplicates (getitem_mask df_ (mask_and m1 m2)) in
  Ok (gate_df_, hd_df_).

(** ** The filter engine *)

(** The sidebar selections [apply_filters] reads. *)
Record filters := mkFilters {
  branch_filter : list string;
  campus_filter : list string;
  branch_drill : string
}.

Definition apply_filters (f : filters) (df_ : DataFrame) : result DataFrame :=
  b ← getitem df_ "ME Branch";
  c ← getitem df_ "Campus";
  let mask := mask_and (series_isin b (branch_filter f)) (series_isin c (campus_filter f)) in
  if decide (branch_drill f ≠ "All branches") then
    b ← getitem df_ "ME Branch";
    Ok (getitem_mask df_ (mask_and mask (series_eq b (VStr (branch_drill f)))))
  else Ok (getitem_mask df_ mask).

(** ** The aggregator *)

(** [min], [max], [mean] of the values of a group; a group is never empty. *)
Definition list_min (l : list float) : float :=
  match l with
  | [] => 0%Qc
  | x :: l' => foldl Qc_min x l'
  end.

Definition list_max (l : list float) : float :=
  match l with
  | [] => 0%Qc
  | x :: l' => foldl Qc_max x l'
  end.

Definition list_sum (l : list float) : float := foldr Qcplus 0%Qc l.

(** The exact mean.  pandas adds and divides doubles, which can move the
    result by a few parts in [2^53]; [exact_mean] and [whole_scores] say
    for which scores that is without effect on the rounded mean. *)
Definition mean (l : list float) : float :=
  (list_sum l / Qc_of_Z (Z.of_nat (length l)))%Qc.

(** Python's [round(q)] to an integer: to the nearest, a tie to the even
    neighbour. *)
Definition round_half_even (q : Q) : Z :=
  let f := Qfloor q in
  match Qcompare (q - inject_Z f) (1 # 2) with
  | Lt => f
  | Gt => (f + 1)%Z
  | Eq => if Z.even f then f else (f + 1)%Z
  end.

(** [round(float(x), 2)] *)
Definition format_mean (x : float) : float :=
  Q2Qc (round_half_even (this x * 100) # 100).

(** The text of a key cell and the number of a score cell.  In the frames of
    this program the key columns hold strings and the score columns floats;
    grouping by or aggregating other cells is outside this model and
    raises. *)
Definition as_str (v : value) : result string :=
  match v with
  | VStr s => Ok s
  | _ => Raise TypeError
  end.

Definition as_float (v : value) : result float :=
  match v with
  | VFloat x => Ok x
  | _ => Raise TypeError
  end.

(** Group keys compare as Python tuples of strings do. *)
Fixpoint keys_leb (k1 k2 : list string) : bool :=
  match k1, k2 with
  | [], _ => true
  | _ :: _, [] => false
  | a :: k1', b :: k2' =>
      if decide (a = b) then keys_leb k1' k2' else String.leb a b
  end.

Definition keys_le (k1 k2 : list string) : Prop := keys_leb k1 k2 = true.

Global Instance keys_le_dec : RelDecision keys_le.
Proof. intros k1 k2. unfold keys_le. apply _. Defined.

Definition row_key (by_ : list string) (r : row) : result (list string) :=
  mapM (λ c, as_str (cell r c)) by_.

(** [df_.groupby(by_)]: the groups in ascending order of their keys, each
    with its rows in the order of the frame. *)
Definition groupby (df_ : DataFrame) (by_ : list string)
    : result (list (list string * list row)) :=
  _ ← mapM (getitem df_) by_;
  keys ← mapM (row_key by_) (rows df_);
  let keyed := zip keys (rows df_) in
  Ok ((λ k, (k, (filter (λ p, p.1 = k) keyed).*2))
        <$> merge_sort keys_le (remove_dups keys)).

(** [groups[col]]: the column [col] of every group. *)
Definition select (df_ : DataFrame) (col : string)
    (groups : list (list string * list row))
    : result (list (list string * list float)) :=
  _ ← getitem df_ col;
  mapM (λ g, xs ← mapM (λ r, as_float (cell r col)) g.2; Ok (g.1, xs)) groups.

(** One row of a cutoff table. *)
Record cutoff := mkCutoff {
  c_key : list string;
  c_min : float;
  c_max : float;
  c_mean : float;
  c_count : nat
}.

(** [.agg(["min", "max", "mean", "count"])] *)
Definition agg_stats (g : list string * list float) : cutoff :=
  mkCutoff g.1 (list_min g.2) (list_max g.2) (mean g.2) (length g.2).

Definition cutoff_le (a b : cutoff) : Prop := keys_le (c_key a) (c_key b).

Global Instance cutoff_le_dec : RelDecision cutoff_le.
Proof. intros a b. unfold cutoff_le. apply _. Defined.

(** [.reset_index().sort_values(by_)] *)
Definition sort_by_key (t : list cutoff) : list cutoff := merge_sort cutoff_le t.

(** [t["mean"] = t["mean"].apply(format_mean)], one row *)
Definition apply_format_mean (c : cutoff) : cutoff :=
  mkCutoff (c_key c) (c_min c) (c_max c) (format_mean (c_mean c)) (c_count c).

(** The cutoff table of a tab: [gate_cutoff] for ["GATE Score"],
    [hd_cutoff] for ["HD Score"]. *)
Definition cutoff_table (df_ : DataFrame) (score : string) : result (list cutoff) :=
  groups ← groupby df_ ["ME Branch"; "Campus"];
  cols ← select df_ score groups;
  let t := sort_by_key (agg_stats <$> cols) in
  Ok (apply_format_mean <$> t).

Definition mean_le (a b : list string * float) : Prop := (a.2 ≤ b.2)%Qc.

Global Instance mean_le_dec : RelDecision mean_le.
Proof. intros a b. unfold mean_le. apply _. Defined.

(** [groupby("ME Branch")[score].mean()], rounded and in ascending order of
    the mean.  pandas does not fix the order of branches with equal means;
    here they keep the order of the keys. *)
Definition branch_mean (df_ : DataFrame) (score : string)
    : result (list (list string * float)) :=
  groups ← groupby df_ ["ME Branch"];
  cols ← select df_ score groups;
  let t := (λ g, (g.1, format_mean (mean g.2))) <$> cols in
  Ok (merge_sort mean_le t).

(** [groupby(by_).size()] *)
Definition group_sizes (df_ : DataFrame) (by_ : list string)
    : result (list (list string * nat)) :=
  groups ← groupby df_ by_;
  Ok (fmap (M := list) (λ g : list string * list row, (g.1, length g.2)) groups).

(** ** The page *)

(** What a metric tile shows. *)
Inductive metric_value :=
  | MCount (n : nat)              (* a length *)
  | MInt (z : Z)                  (* [int(x)] *)
  | MMean (x : float)             (* a rounded mean, shown with two decimals *)
  | MShare (gate hd : nat).       (* ["{gate} GATE / {hd} HD"] *)

(** A Plotly figure, by the data it draws. *)
Inductive figure :=
  | px_histogram (data : DataFrame) (x : string) (nbins : Z) (title : string)
  | px_box (data : DataFrame) (x : string) (title : string)
  | px_bar_mean (data : list (list string * float)) (title : string)
  | px_bar_count (data : list (list string * nat)) (title : string)
  | px_pie (data : list (list string * nat)) (title : string).

(** The Streamlit calls of the script that configure or show something, in
    the order they are made; layout containers ([st.columns]) and chart
    styling are left out. *)
Inductive element :=
  | set_page_config (page_title : string)
  | st_error (msg : string)
  | st_info (msg : string)
  | st_title (text : string)
  | st_caption (text : string)
  | st_header (text : string)
  | st_subheader (text : string)
  | st_markdown (text : string)
  | st_metric (label : string) (v : metric_value)
  | st_slider (label : string) (lo hi start : Z)
  | st_plotly_chart (fig : figure)
  | st_dataframe (data : DataFrame)
  | st_dataframe_cutoff (data : list cutoff)
  | st_tabs (labels : list string)
  | sidebar_title (text : string)
  | sidebar_radio (label : string) (options : list string)
  | sidebar_multiselect (label : string) (options default : list string)
  | sidebar_markdown (text : string)
  | sidebar_selectbox (label : string) (options : list string)
  | sidebar_caption (text : string).

(** How a run of the script ends early: [st.stop()] or an exception. *)
Inductive halt :=
  | Stopped
  | Uncaught (e : exn).

(** A piece of the script: the calls it makes, and its value unless it
    halts. *)
Definition page (A : Type) : Type := (list element * (halt + A))%type.

Global Instance page_ret : MRet page := λ A a, ([], inr a).

Global Instance page_bind : MBind page := λ A B f m,
  match m with
  | (out, inl h) => (out, inl h)
  | (out, inr a) => let '(out', r) := f a in (out ++ out', r)
  end.

Definition emit (e : element) : page unit := ([e], inr tt).

Definition st_stop : page unit := ([], inl Stopped).

Definition lift {A} (r : result A) : page A :=
  match r with
  | Ok a => ([], inr a)
  | Raise e => ([], inl (Uncaught e))
  end.

(** What the user has selected in the widgets. *)
Record session := mkSession {
  selected_mode : string;
  selection : filters;
  gate_bins : Z;
  hd_bins : Z
}.

(** [df_.empty] *)
Definition empty (df_ : DataFrame) : bool :=
  bool_decide (rows df_ = [] ∨ columns df_ = []).

Definition is_missing (v : value) : bool :=
  match v with
  | VNone | VNaN => true
  | _ => false
  end.

(** [s.dropna().unique()] *)
Definition dropna_unique (s : list value) : list value :=
  keep_first (filter (λ v, is_missing v = false) s).

(** [sorted(df_[c].dropna().unique())], for a column of strings *)
Definition sorted_unique (df_ : DataFrame) (c : string) : result (list string) :=
  s ← getitem df_ c;
  l ← mapM as_str (dropna_unique s);
  Ok (merge_sort String.le l).

(** [df_[c].nunique()] *)
Definition nunique (df_ : DataFrame) (c : string) : result nat :=
  s ← getitem df_ c;
  Ok (length (dropna_unique s)).

(** [int(x)]: the integer part, rounding toward zero *)
Definition int (x : float) : Z := Z.quot (Qnum (this x)) (Z.pos (Qden (this x))).

(** The column [c] of a frame as floats, for [mean], [max] and [min]. *)
Definition float_column (df_ : DataFrame) (c : string) : result (list float) :=
  s ← getitem df_ c;
  mapM as_float s.

Section script.

Variable float_repr : float → string.
Variable fs : filesystem.
Variable ui : session.

Definition tab_gate (gate_df : DataFrame) : page unit :=
  emit (st_header "GATE Admissions Analysis");;
  gated ← lift (apply_filters (selection ui) gate_df);
  if empty gated then
    emit (st_info "No GATE admissions match the current filters.")
  else
    scores ← lift (float_column gated "GATE Score");
    emit (st_metric "Total GATE Entries" (MCount (length (rows gated))));;
    emit (st_metric "Average GATE Score" (MMean (format_mean (mean scores))));;
    emit (st_metric "Highest GATE Score" (MInt (int (list_max scores))));;
    emit (st_metric "Lowest GATE Score" (MInt (int (list_min scores))));;
    emit (st_markdown "### GATE Score Distribution");;
    emit (st_slider "Histogram bins (GATE)" 10 50 25);;
    emit (st_plotly_chart
            (px_histogram gated "GATE Score" (gate_bins ui) "GATE Score Distribution"));;
    emit (st_plotly_chart (px_box gated "GATE Score" "Score Spread"));;
    emit (st_markdown "### Branch & Campus-level Cutoffs");;
    gate_cutoff ← lift (cutoff_table gated "GATE Score");
    emit (st_dataframe_cutoff gate_cutoff);;
    emit (st_markdown "### Average GATE Score by Branch");;
    branch_mean_gate ← lift (branch_mean gated "GATE Score");
    emit (st_plotly_chart (px_bar_mean branch_mean_gate "Average GATE Score by Branch"));;
    emit (st_markdown "### Campus Distribution (GATE)");;
    campus_branch_gate ← lift (group_sizes gated ["Campus"; "ME Branch"]);
    emit (st_plotly_chart
            (px_bar_count campus_branch_gate "GATE Entries per Campus by Branch"));;
    branch_counts_gate ← lift (group_sizes gated ["ME Branch"]);
    emit (st_plotly_chart
            (px_pie branch_counts_gate "GATE Share by Branch (all campuses)")).

Definition tab_hd (hd_df : DataFrame) : page unit :=
  emit (st_header "BITS-HD Test Admissions Analysis");;
  hdd ← lift (apply_filters (selection ui) hd_df);
  if empty hdd then
    emit (st_info "No BITS-HD test admissions match the current filters.")
  else
    scores ← lift (float_column hdd "HD Score");
    emit (st_metric "Total HD Entries" (MCount (length (rows hdd))));;
    emit (st_metric "Average HD Score" (MMean (format_mean (mean scores))));;
    emit (st_metric "Highest HD Score" (MInt (int (list_max scores))));;
    emit (st_metric "Lowest HD Score" (MInt (int (list_min scores))));;
    emit (st_markdown "### BITS-HD Score Distribution");;
    emit (st_slider "Histogram bins (HD)" 10 50 20);;
    emit (st_plotly_chart
            (px_histogram hdd "HD Score" (hd_bins ui) "BITS-HD Score Distribution"));;
    emit (st_plotly_chart (px_box hdd "HD Score" "Score Spread"));;
    emit (st_markdown "### Branch & Campus-level Cutoffs");;
    hd_cutoff ← lift (cutoff_table hdd "HD Score");
    emit (st_dataframe_cutoff hd_cutoff);;
    emit (st_markdown "### Average HD Score by Branch");;
    branch_mean_hd ← lift (branch_mean hdd "HD Score");
    emit (st_plotly_chart (px_bar_mean branch_mean_hd "Average HD Score by Branch"));;
    emit (st_markdown "### Campus Distribution (BITS-HD)");;
    campus_branch_hd ← lift (group_sizes hdd ["Campus"; "ME Branch"]);
    emit (st_plotly_chart
            (px_bar_count campus_branch_hd "HD Entries per Campus by Branch"));;
    branch_counts_hd ← lift (group_sizes hdd ["ME Branch"]);
    emit (st_plotly_chart
            (px_pie branch_counts_hd "HD Share by Branch (all campuses)")).

(** The script of [app.py], top to bottom. *)
Definition app : page unit :=
  emit (set_page_config "BITS HD Admissions Analytics (2024)");;
  (if decide (is_Some (fs !! DATA_PATH)) then mret tt
   else emit (st_error ("Data file not found: " +:+ DATA_PATH));; st_stop);;
  df ← lift (load_data float_repr fs DATA_PATH);
  split ← lift (split_modes df);
  let gate_df := split.1 in
  let hd_df := split.2 in
  emit (sidebar_title "Filters");;
  all_branches ← lift (sorted_unique df "ME Branch");
  all_campuses ← lift (sorted_unique df "Campus");
  emit (sidebar_radio "Admission mode" ["All"; "GATE only"; "BITS-HD Test only"]);;
  emit (sidebar_multiselect "ME / M.Pharm Branch" all_branches all_branches);;
  emit (sidebar_multiselect "Campus" all_campuses all_campuses);;
  emit (sidebar_markdown "---");;
  emit (sidebar_selectbox "Branch drilldown" ("All branches" :: all_branches));;
  emit (sidebar_caption
          "Use filters and branch drilldown together to zoom into specific patterns.");;
  emit (st_title "BITS HD Admissions Analytics (2024)");;
  emit (st_caption "BITS HD 2024 admissions analytics based on GATE and BITS-HD test–based entries, showing score distributions, branch cutoffs, and campus trends.");;
  emit (st_caption "Source: Community-contributed Google Sheet [BITS HD 2024 Data](https://docs.google.com/spreadsheets/d/16fZ25NnCwiVtJN5jI9ZPNHm32WJOJ5tRtljcvYTXF6c/)");;
  emit (st_metric "Total Records" (MCount (length (rows df))));;
  n_branches ← lift (nunique df "ME Branch");
  emit (st_metric "Unique Branches" (MCount n_branches));;
  n_campuses ← lift (nunique df "Campus");
  emit (st_metric "Unique Campuses" (MCount n_campuses));;
  emit (st_metric "GATE vs HD Share"
          (MShare (length (rows gate_df)) (length (rows hd_df))));;
  (if decide (branch_drill (selection ui) ≠ "All branches") then
     emit (st_info ("Branch drilldown active: " +:+ branch_drill (selection ui)))
   else mret tt);;
  emit (st_tabs ["GATE Admissions"; "BITS-HD Admissions"]);;
  tab_gate gate_df;;
  tab_hd hd_df;;
  emit (st_markdown "---");;
  emit (st_subheader "Raw Data (after filters)");;
  combined ← lift
    (if decide (selected_mode ui = "GATE only") then
       apply_filters (selection ui) gate_df
     else if decide (selected_mode ui = "BITS-HD Test only") then
       apply_filters (selection ui) hd_df
     else apply_filters (selection ui) df);
  emit (st_dataframe combined);;
  emit (st_caption "Note: This dashboard summarizes BITS HD 2024 data only. Original responses: [Google Sheet link](https://docs.google.com/spreadsheets/d/16fZ25NnCwiVtJN5jI9ZPNHm32WJOJ5tRtljcvYTXF6c/).").

End script.

(** ** The converter of [main.py] *)

Definition CSV_PATH : string := "BITS HD Admissions - Responses - 2024.csv".

Definition JSON_PATH : string := "bits_hd_2024.json".

(** The CSV files of the working directory, each by the frame
    [pd.read_csv] makes of it (the parsing itself is not modelled). *)
Abbreviation csv_files := (gmap string DataFrame).

(** A row with an entry in some column. *)
Definition not_blank (cols : list string) (r : row) : Prop :=
  Exists (λ c, is_missing (cell r c) = false) cols.

Global Instance not_blank_dec (cols : list string) (r : row) :
  Decision (not_blank cols r).
Proof. unfold not_blank. apply _. Defined.

(** [df.dropna(how="all")] *)
Definition dropna_all (df_ : DataFrame) : DataFrame :=
  mkDF (columns df_) (filter (not_blank (columns df_)) (rows df_)).

(** [df.columns = df.columns.str.strip()]: the assignment itself accepts
    labels that coincide. *)
Definition strip_labels (df_ : DataFrame) : DataFrame :=
  mkDF (strip <$> columns df_) (relabel_row strip <$> rows df_).

(** [df.where(pd.notnull(df), None)], one cell.  In a numeric column pandas
    may keep [nan] where this puts [None]; [to_json] writes either as
    [null], see [json_cell]. *)
Definition where_notnull (v : value) : value :=
  if is_missing v then VNone else v.

Section converter.

(** [to_json] writes a float with at most ten decimals; the float that text
    reads back as is a parameter of the development. *)
Variable json_float : float → float.

(** What a cell is after [to_json] and [json.load]: a missing entry is
    [null], read back as [None]. *)
Definition json_cell (v : value) : value :=
  match v with
  | VNone | VNaN => VNone
  | VFloat x => VFloat (json_float x)
  | _ => v
  end.

(** [df.to_json(path, orient="records")], by the array that [json.load]
    reads back; labels that coincide are refused. *)
Definition to_json_records (df_ : DataFrame) : result (list row) :=
  if decide (NoDup (columns df_)) then
    Ok ((λ r, list_to_map ((λ c, (c, json_cell (cell r c))) <$> columns df_))
          <$> rows df_)
  else Raise ValueError.

(** The script of [main.py]: the files after the run and what it prints. *)
Definition main (csv : csv_files) (fs : filesystem)
    : result (filesystem * list string) :=
  df ← from_option Ok (Raise FileNotFoundError) (csv !! CSV_PATH);
  let df := dropna_all df in
  let df := strip_labels df in
  let df := mkDF (columns df) ((λ r : row, where_notnull <$> r) <$> rows df) in
  recs ← to_json_records df;
  Ok (<[JSON_PATH := recs]> fs, ["JSON file created: bits_hd_2024.json"]).

End converter.

(** * Part II: the vocabulary of the specification, and sample inputs *)

(** ** The numeric pattern, as the specification words it *)

(** The longest run of digits at the start of a string, and what follows. *)
Fixpoint span_digits (s : string) : string * string :=
  match s with
  | String c s' =>
      if Re.is_digit c then
        let '(d, r) := span_digits s' in (String c d, r)
      else (EmptyString, s)
  | EmptyString => (EmptyString, EmptyString)
  end.

(** The first decimal number in a string: one or more digits, then
    optionally a dot and one or more digits.  The result is the integer
    digits and the fraction digits (empty when there is no fraction). *)
Fixpoint spec_first_decimal (s : string) : option (string * string) :=
  match s with
  | EmptyString => None
  | String c s' =>
      if Re.is_digit c then
        let '(d1, r1) := span_digits s in
        match r1 with
        | String "."%char r2 =>
            let '(d2, _) := span_digits r2 in Some (d1, d2)
        | _ => Some (d1, EmptyString)
        end
      else spec_first_decimal s'
  end.

(** The number a string of digits denotes, most significant digit first. *)
Definition digits_to_N (d : string) : N :=
  fold_left (λ acc c, 10 * acc + digit_val c)%N (String.list_ascii_of_string d) 0%N.

(** The value of the literal [d1.d2]. *)
Definition spec_decimal_value (d1 d2 : string) : float :=
  (Q2Qc (inject_Z (Z.of_N (digits_to_N d1))) +
   Q2Qc (Z.of_N (digits_to_N d2) # 1) / Q2Qc (inject_Z (10 ^ Z.of_nat (String.length d2))))%Qc.

Definition spec_parseNumeric (s : string) : float :=
  match spec_first_decimal s with
  | Some (d1, d2) => spec_decimal_value d1 d2
  | None => Q2Qc 0
  end.

Fixpoint has_digit (s : string) : bool :=
  match s with
  | EmptyString => false
  | String c s' => Re.is_digit c || has_digit s'
  end.

Local Abbreviation num_step := (λ (acc : N) (c : ascii), (10 * acc + digit_val c)%N).

(** ** What the loader does to one row *)

(** What [clean_numeric] makes of one cell whose text is [s]. *)
Definition parse_numeric (s : string) : float :=
  default 0%Qc (Re.search pattern s ≫= to_double).

Section rows_of_loader.

Variable float_repr : float → string.

Definition clean_cell (v : value) : value :=
  VFloat (parse_numeric (py_str float_repr v)).

Definition clean_row (c : string) (r : row) : row :=
  <[c := clean_cell (cell r c)]> r.

Definition strip_row (c : string) (r : row) : row :=
  <[c := VStr (strip (py_str float_repr (cell r c)))]> r.

Definition hd_score_of (r : row) : value :=
  match cell r "HD Core", cell r "HD SS" with
  | VFloat x, VFloat y => VFloat (Qc_max x y)
  | _, _ => VNaN
  end.

Definition hd_score_row (r : row) : row := <["HD Score" := hd_score_of r]> r.

Definition normalize_row (has_branch has_campus : bool) (r : row) : row :=
  let r := hd_score_row (clean_row "HD SS" (clean_row "HD Core" (clean_row "GATE Score" r))) in
  let r := if has_branch then strip_row "ME Branch" r else r in
  if has_campus then strip_row "Campus" r else r.

Definition normalize_frame (df0 : DataFrame) : DataFrame :=
  mkDF (if decide ("HD Score" ∈ columns df0) then columns df0
        else columns df0 ++ ["HD Score"])
       (normalize_row (bool_decide ("ME Branch" ∈ columns df0))
                      (bool_decide ("Campus" ∈ columns df0)) <$> rows df0).

End rows_of_loader.

(** The frame after the two relabellings, row by row. *)
Definition relabelled_row (raw : list row) (r : row) : row :=
  relabel_row rename (relabel_row strip (r ∪ gset_to_gmap VNaN (labels_of raw))).

(** ** Typed readings of a normalized row *)

Definition float_of (v : value) : float := default 0%Qc (as_num v).

Definition gate_score (r : row) : float := float_of (cell r "GATE Score").

Definition hd_score (r : row) : float := float_of (cell r "HD Score").

(** The frames the splitter is given: the two score columns exist and hold
    floats. *)
Definition normalized (df_ : DataFrame) : Prop :=
  "GATE Score" ∈ columns df_ ∧ "HD Score" ∈ columns df_ ∧
  Forall (λ r, ∃ g h : float, r !! "GATE Score" = Some (VFloat g) ∧
                              r !! "HD Score" = Some (VFloat h)) (rows df_).


(** ** The filter engine, as the specification words it *)

(** A record matches a configuration: its branch is among the branches,
    its campus among the campuses and, with a drill-down set, its branch is
    the drill-down branch. *)
Definition matches (f : filters) (r : row) : Prop :=
  cell r "ME Branch" ∈ VStr <$> branch_filter f ∧
  cell r "Campus" ∈ VStr <$> campus_filter f ∧
  (branch_drill f ≠ "All branches" → cell r "ME Branch" = VStr (branch_drill f)).

Global Instance matches_dec (f : filters) (r : row) : Decision (matches f r).
Proof. unfold matches. apply _. Defined.

(** Modelled from the spec: the repository has no function that merges two
    filter configurations.  [merge] intersects the branch sets and the campus
    sets and takes the drill-down that is set; two configurations are
    compatible when their drill-downs do not name different branches. *)
Definition merge (f1 f2 : filters) : filters :=
  mkFilters (filter (λ b, b ∈ branch_filter f2) (branch_filter f1))
            (filter (λ c, c ∈ campus_filter f2) (campus_filter f1))
            (if decide (branch_drill f1 = "All branches") then branch_drill f2
             else branch_drill f1).

Definition compatible (f1 f2 : filters) : Prop :=
  branch_drill f1 = "All branches" ∨ branch_drill f2 = "All branches" ∨
  branch_drill f1 = branch_drill f2.

(** ** Typed readings for the aggregator *)

Definition text_of (v : value) : string :=
  match v with
  | VStr s => s
  | _ => ""
  end.

(** The (branch, campus) key of a row. *)
Definition key_of (r : row) : list string :=
  [text_of (cell r "ME Branch"); text_of (cell r "Campus")].

Definition score_of (col : string) (r : row) : float := float_of (cell r col).

(** The scores of the rows of a (branch, campus) group, in frame order. *)
Definition group_scores (df_ : DataFrame) (col : string) (k : list string) : list float :=
  score_of col <$> filter (λ r, key_of r = k) (rows df_).

(** The frames the aggregator is given: branch and campus are strings, the
    score is a float. *)
Definition aggregable (df_ : DataFrame) (col : string) : Prop :=
  "ME Branch" ∈ columns df_ ∧ "Campus" ∈ columns df_ ∧ col ∈ columns df_ ∧
  Forall (λ r, ∃ (b c : string) (x : float),
            r !! "ME Branch" = Some (VStr b) ∧ r !! "Campus" = Some (VStr c) ∧
            r !! col = Some (VFloat x)) (rows df_).

Definition keys_lt (k1 k2 : list string) : Prop := keys_le k1 k2 ∧ k1 ≠ k2.

(** The row of a cutoff table for the group of key [k], before rounding. *)
Definition stats_of (df_ : DataFrame) (col : string) (k : list string) : cutoff :=
  agg_stats (k, group_scores df_ col k).

(** The keys of the groups of a frame, ascending. *)
Definition group_keys (df_ : DataFrame) : list (list string) :=
  merge_sort keys_le (remove_dups (key_of <$> rows df_)).

(** A cutoff row as plain data: key, minimum, maximum, mean, count. *)
Definition cutoff_view (c : cutoff) : list string * Q * Q * Q * nat :=
  (c_key c, this (c_min c), this (c_max c), this (c_mean c), c_count c).

(** ** Further vocabulary *)






(** Strictly before, in the order of [sorted] on strings. *)
Definition str_lt (s t : string) : Prop := String.le s t ∧ s ≠ t.

(** A column that holds a string in every row. *)
Definition text_column (df_ : DataFrame) (c : string) : Prop :=
  c ∈ columns df_ ∧ Forall (λ r, ∃ s, r !! c = Some (VStr s)) (rows df_).

(** The group key of a row under the labels [by_]. *)
Definition key_by (by_ : list string) (r : row) : list string :=
  (λ c, text_of (cell r c)) <$> by_.

(** The rows of the group of key [k], in frame order. *)
Definition rows_by (df_ : DataFrame) (by_ : list string) (k : list string) : list row :=
  filter (λ r, key_by by_ r = k) (rows df_).

(** The keys of the groups, ascending. *)
Definition keys_by (df_ : DataFrame) (by_ : list string) : list (list string) :=
  merge_sort keys_le (remove_dups (key_by by_ <$> rows df_)).



(** A column that holds a float in every row. *)
Definition float_col (df_ : DataFrame) (c : string) : Prop :=
  c ∈ columns df_ ∧ Forall (λ r, ∃ x, r !! c = Some (VFloat x)) (rows df_).

(** The scores of a frame, in frame order. *)
Definition scores (df_ : DataFrame) (col : string) : list float :=
  score_of col <$> rows df_.

(** The frame behind the raw-data table, by the selected mode. *)
Definition raw_view (mode : string) (df gate_df hd_df : DataFrame) : DataFrame :=
  if decide (mode = "GATE only") then gate_df
  else if decide (mode = "BITS-HD Test only") then hd_df
  else df.


(** ** Inputs on which bytes and exact numbers say what Python does *)












(** ** Sample inputs *)

(** A text for floats in examples whose cells hold no float. *)
Definition repr_unused : float → string := λ _, "".

Definition sample_records : list row :=
  [ {[ "GATE Score" := VStr "55.5 (General)"; "HD Core" := VStr "0"; "HD SS" := VNone;
       "ME Branch" := VStr " CS "; "Campus" := VStr "Pilani" ]};
    {[ "GATE Score" := VInt 0; "HD Core" := VStr "212"; "HD SS" := VStr "198.5 marks";
       "ME Branch" := VStr "CS"; "Campus" := VStr "Goa" ]};
    {[ "GATE Score" := VStr "NA"; "HD Core" := VStr "-"; "HD SS" := VStr "not applicable";
       "ME Branch" := VStr "Mech"; "Campus" := VStr "Not applicable" ]} ].

Definition sample_fs : filesystem := {[ DATA_PATH := sample_records ]}.

Definition sample_df : DataFrame :=
  Eval vm_compute in
    match load_data repr_unused sample_fs DATA_PATH with
    | Ok df_ => df_
    | Raise _ => mkDF [] []
    end.

Definition sample_split : DataFrame * DataFrame :=
  Eval vm_compute in
    match split_modes sample_df with
    | Ok p => p
    | Raise _ => (mkDF [] [], mkDF [] [])
    end.

Definition sample_filters : filters := mkFilters ["CS"; "Mech"] ["Goa"; "Pilani"] "CS".

Definition sample_filters' : filters := mkFilters ["CS"] ["Goa"] "All branches".

Definition sample_session : session :=
  mkSession "All" (mkFilters [] ["Goa"; "Pilani"] "All branches") 25 20.


(** ** A survey file and a CSV export *)

(** A file whose records lack the HD SS field. *)
Definition no_hd_ss_records : list row :=
  [ {[ "GATE Score" := VStr "41"; "HD Core" := VStr "0";
       "ME Branch" := VStr "CS"; "Campus" := VStr "Goa" ]} ].

Definition no_hd_ss_fs : filesystem := {[ DATA_PATH := no_hd_ss_records ]}.

(** A small survey file: a legacy label, labels with stray blanks, a field
    the loader does not touch, a record entered twice, a record without
    scores and a record without the HD SS key. *)
Definition survey_records : list row :=
  [ {[ "Timestamp" := VStr "2024-06-01";
       "GATE or GPAT score (if not through GATE/GPAT then put 0)" := VStr "612 (AIR 900)";
       "HD Core " := VStr "0"; " HD SS" := VStr "0";
       "ME Branch" := VStr " CS "; "Campus " := VStr "Pilani" ]};
    {[ "Timestamp" := VStr "2024-06-02";
       "GATE or GPAT score (if not through GATE/GPAT then put 0)" := VStr "0";
       "HD Core " := VStr "212"; " HD SS" := VStr "198.5";
       "ME Branch" := VStr "CS"; "Campus " := VStr "Goa" ]};
    {[ "Timestamp" := VStr "2024-06-01";
       "GATE or GPAT score (if not through GATE/GPAT then put 0)" := VStr "612 (AIR 900)";
       "HD Core " := VStr "0"; " HD SS" := VStr "0";
       "ME Branch" := VStr " CS "; "Campus " := VStr "Pilani" ]};
    {[ "Timestamp" := VStr "2024-06-03";
       "GATE or GPAT score (if not through GATE/GPAT then put 0)" := VStr "NA";
       "HD Core " := VNone; " HD SS" := VStr "-";
       "ME Branch" := VStr "Mech"; "Campus " := VStr "Not applicable" ]};
    {[ "Timestamp" := VStr "2024-06-04";
       "GATE or GPAT score (if not through GATE/GPAT then put 0)" := VStr "455.";
       "HD Core " := VStr "0";
       "ME Branch" := VStr "Mech "; "Campus " := VStr "Pilani" ]};
    {[ "Timestamp" := VStr "2024-06-05";
       "GATE or GPAT score (if not through GATE/GPAT then put 0)" := VInt 0;
       "HD Core " := VStr "0"; " HD SS" := VStr "305";
       "ME Branch" := VStr "SS"; "Campus " := VStr "Hyderabad" ]} ].

Definition survey_fs : filesystem := {[ DATA_PATH := survey_records ]}.

Definition survey_df : DataFrame :=
  Eval vm_compute in
    match load_data repr_unused survey_fs DATA_PATH with
    | Ok df_ => df_
    | Raise _ => mkDF [] []
    end.

Definition survey_split : DataFrame * DataFrame :=
  Eval vm_compute in
    match split_modes survey_df with
    | Ok p => p
    | Raise _ => (mkDF [] [], mkDF [] [])
    end.

(** Everything selected, no drill-down. *)
Definition survey_session : session :=
  mkSession "All"
    (mkFilters ["CS"; "Mech"; "SS"] ["Goa"; "Hyderabad"; "Not applicable"; "Pilani"]
               "All branches") 25 20.

(** Campus Pilani only, drilled into "Mech". *)
Definition pilani_filters : filters := mkFilters ["CS"; "Mech"; "SS"] ["Pilani"] "Mech".

Definition survey_gated : DataFrame :=
  Eval vm_compute in
    match apply_filters (selection survey_session) survey_split.1 with
    | Ok df_ => df_
    | Raise _ => mkDF [] []
    end.

Definition survey_hdd : DataFrame :=
  Eval vm_compute in
    match apply_filters (selection survey_session) survey_split.2 with
    | Ok df_ => df_
    | Raise _ => mkDF [] []
    end.

(** A frame as read from a CSV export: labels with stray blanks and a blank
    row. *)
Definition survey_csv : DataFrame :=
  mkDF [" GATE Score"; "ME Branch "]
    [ {[ " GATE Score" := VStr "612"; "ME Branch " := VStr "CS" ]};
      {[ " GATE Score" := VNaN; "ME Branch " := VNaN ]};
      {[ " GATE Score" := VNaN; "ME Branch " := VStr "Mech" ]} ].

Definition survey_csv_files : csv_files := {[ CSV_PATH := survey_csv ]}.

(** The directory after the converter ran on the CSV export, floats read
    back unchanged. *)
Definition survey_json : filesystem :=
  Eval vm_compute in
    match main (λ x, x) survey_csv_files ∅ with
    | Ok p => p.1
    | Raise _ => ∅
    end.

(** * Part III: proofs *)

(** Closed decidable goals are settled by evaluation. *)
Ltac by_compute := apply (bool_decide_unpack _); vm_compute; exact I.

(** ** The error monad *)

Lemma bind_Ok {A B} (f : A → result B) (a : A) : Ok a ≫= f = f a.
Proof. reflexivity. Qed.

Lemma mapM_Ok_fmap {A B} (f : A → result B) (g : A → B) (l : list A) :
  (∀ x, x ∈ l → f x = Ok (g x)) → mapM f l = Ok (g <$> l).
Proof.
  induction l as [|x l IH]; intros H; [reflexivity|].
  cbn. rewrite (H x) by left. cbn.
  rewrite IH by (intros y Hy; apply H; by right). reflexivity.
Qed.

Lemma mapM_fmap_Ok_fmap {A B C} (f : B → result C) (h : A → B) (g : A → C) (l : list A) :
  (∀ x, x ∈ l → f (h x) = Ok (g x)) → mapM f (h <$> l) = Ok (g <$> l).
Proof.
  induction l as [|x l IH]; intros H; [reflexivity|].
  cbn. rewrite (H x) by left. cbn.
  rewrite IH by (intros y Hy; apply H; by right). reflexivity.
Qed.

(** ** The matcher and the literal reader *)

Lemma append_cons (c : ascii) (s t : string) : String c s +:+ t = String c (s +:+ t).
Proof. reflexivity. Qed.

Lemma append_nil_r (s : string) : s +:+ EmptyString = s.
Proof. induction s as [|c s IH]; [done|]. by rewrite append_cons, IH. Qed.

Lemma star_here_total (k : string → option (string * string)) (s : string) :
  (∀ t, is_Some (k t)) →
  Re.star_here k Re.Digit s =
    (let '(d, r) := span_digits s in prod_map (String.append d) id <$> k r).
Proof.
  intros Hk. induction s as [|c s IH]; simpl.
  - destruct (k EmptyString) as [[m r]|]; reflexivity.
  - destruct (Re.is_digit c) eqn:Hc.
    + rewrite IH. destruct (span_digits s) as [d r].
      destruct (Hk r) as [[m r'] ->]. reflexivity.
    + destruct (k (String c s)) as [[m r]|]; reflexivity.
Qed.

Lemma span_digits_not_digit (c : ascii) (s : string) :
  Re.is_digit c = false → span_digits (String c s) = (EmptyString, String c s).
Proof. intros H. simpl. rewrite H. reflexivity. Qed.

Lemma span_digits_rest (s : string) :
  match (span_digits s).2 with
  | String c _ => Re.is_digit c = false
  | EmptyString => True
  end.
Proof.
  induction s as [|c s IH]; simpl; [done|].
  destruct (Re.is_digit c) eqn:Hc.
  - destruct (span_digits s) as [d r]. exact IH.
  - simpl. exact Hc.
Qed.

(** The match of the source pattern at the head of a string. *)
Lemma match_here_pattern (s : string) :
  Re.match_here pattern s =
    match s with
    | String c s' =>
        if Re.is_digit c then
          let '(d1, r1) := span_digits s' in
          match r1 with
          | String "."%char r2 =>
              let '(d2, r3) := span_digits r2 in
              Some (String c (d1 +:+ String "."%char d2), r3)
          | _ => Some (String c d1, r1)
          end
        else None
    | EmptyString => None
    end.
Proof.
  destruct s as [|c s]; [reflexivity|].
  cbn [Re.match_here pattern Re.one_here Re.atom_matches].
  destruct (Re.is_digit c) eqn:Hc; [|reflexivity].
  set (k3 := λ t : string, Some (EmptyString, t)).
  set (k2 := Re.star_here k3 Re.Digit).
  set (k1 := λ t, match Re.one_here k2 (Re.Lit ".") t with
                  | Some res => Some res
                  | None => k2 t
                  end).
  assert (Hk2 : ∀ t, k2 t = Some (span_digits t)).
  { intros t. unfold k2. rewrite star_here_total by (intros; unfold k3; eauto).
    destruct (span_digits t) as [d r]. unfold k3. simpl.
    by rewrite append_nil_r. }
  assert (Hk1 : ∀ t, k1 t =
            match t with
            | String "."%char t' =>
                let '(d2, r3) := span_digits t' in Some (String "."%char d2, r3)
            | _ => Some (span_digits t)
            end).
  { intros t. unfold k1, Re.one_here. destruct t as [|a t]; [apply Hk2|].
    cbn [Re.atom_matches]. case_bool_decide as Ha.
    - subst a. rewrite Hk2. by destruct (span_digits t).
    - rewrite Hk2.
      destruct a as [[] [] [] [] [] [] [] []]; try reflexivity.
      exfalso; apply Ha; reflexivity. }
  clearbody k1. clear Hk2. clearbody k2. clear k2 k3.
  rewrite star_here_total.
  2:{ intros t. rewrite Hk1. destruct t as [|a t]; [eauto|].
      destruct a as [[] [] [] [] [] [] [] []]; eauto; destruct (span_digits t); eauto. }
  pose proof (span_digits_rest s) as Hrest.
  destruct (span_digits s) as [d1 r1]. cbn [snd] in Hrest.
  rewrite Hk1. destruct r1 as [|a r1].
  - cbn. by rewrite append_nil_r.
  - assert (Hsp : span_digits (String a r1) = (EmptyString, String a r1))
      by (by apply span_digits_not_digit).
    destruct a as [[] [] [] [] [] [] [] []];
      try (rewrite Hsp; cbn; by rewrite append_nil_r).
    destruct (span_digits r1) as [d2 r3]. reflexivity.
Qed.

Lemma take_digits_span (acc : N) (cnt : nat) (s t : string) :
  match t with String c _ => Re.is_digit c = false | EmptyString => True end →
  take_digits acc cnt ((span_digits s).1 +:+ t) =
    (fold_left num_step (String.list_ascii_of_string (span_digits s).1) acc,
     (cnt + String.length (span_digits s).1)%nat, t).
Proof.
  intros Ht. revert acc cnt. induction s as [|c s IH]; intros acc cnt.
  - simpl. rewrite Nat.add_0_r. destruct t; simpl; [done|]. by rewrite Ht.
  - simpl. destruct (Re.is_digit c) eqn:Hc.
    + destruct (span_digits s) as [d r] eqn:Hs. simpl in *.
      rewrite Hc, IH. f_equal. f_equal. lia.
    + simpl. rewrite Nat.add_0_r. destruct t; simpl; [done|]. by rewrite Ht.
Qed.

Lemma fold_num_step (l : list ascii) (acc : N) :
  fold_left num_step l acc =
    (acc * 10 ^ N.of_nat (length l) + fold_left num_step l 0)%N.
Proof.
  revert acc. induction l as [|c l IH]; intros acc.
  - simpl. lia.
  - cbn [fold_left length]. rewrite IH, (IH (10 * 0 + digit_val c)%N).
    rewrite Nat2N.inj_succ, N.pow_succ_r'. lia.
Qed.

Lemma to_double_span (s t : string) :
  (span_digits s).1 ≠ EmptyString →
  to_double ((span_digits s).1 +:+ t) =
    match t with
    | EmptyString => Some (decimal (digits_to_N (span_digits s).1) 0)
    | String "."%char r2 =>
        if bool_decide (r2 = (span_digits r2).1) then
          Some (decimal (fold_left num_step (String.list_ascii_of_string r2)
                           (digits_to_N (span_digits s).1))
                        (String.length r2))
        else to_double ((span_digits s).1 +:+ t)
    | _ => to_double ((span_digits s).1 +:+ t)
    end.
Proof.
  intros Hne. destruct t as [|a t].
  - unfold to_double. rewrite take_digits_span by done.
    destruct (span_digits s).1 as [|c d] eqn:Hd; [done|]. reflexivity.
  - destruct a as [[] [] [] [] [] [] [] []]; try reflexivity.
    case_bool_decide as Hr; [|reflexivity].
    unfold to_double at 1. rewrite take_digits_span by reflexivity.
    destruct (span_digits s).1 as [|c d] eqn:Hd; [done|].
    cbn [Nat.add String.length]. rewrite bool_decide_eq_true_2 by reflexivity.
    rewrite Hr at 1. rewrite <-(append_nil_r (span_digits t).1).
    rewrite take_digits_span by done. rewrite <-Hr. reflexivity.
Qed.

Lemma span_digits_idem (s : string) :
  (span_digits s).1 = (span_digits (span_digits s).1).1.
Proof.
  induction s as [|c s IH]; [reflexivity|]. simpl.
  destruct (Re.is_digit c) eqn:Hc; [|reflexivity].
  destruct (span_digits s) as [d r]. simpl in *. rewrite Hc.
  destruct (span_digits d) as [d' r']. simpl in *. congruence.
Qed.


Lemma spec_decimal_value_decimal (d1 d2 : string) :
  spec_decimal_value d1 d2 =
    decimal (fold_left num_step (String.list_ascii_of_string d2) (digits_to_N d1))
            (String.length d2).
Proof.
  unfold spec_decimal_value, decimal.
  rewrite fold_num_step. fold (digits_to_N d2).
  assert (Hlen : length (String.list_ascii_of_string d2) = String.length d2).
  { clear. induction d2 as [|c d IH]; simpl; congruence. }
  rewrite Hlen. clear Hlen.
  set (n1 := digits_to_N d1). set (n2 := digits_to_N d2).
  set (k := String.length d2).
  assert (Hpow : (0 < 10 ^ Z.of_nat k)%Z) by (apply Z.pow_pos_nonneg; lia).
  unfold Qcplus, Qcdiv, Qcmult, Qcinv. apply Q2Qc_eq_iff. simpl.
  rewrite !Qred_correct. rewrite (Qmake_Qdiv _ (Z.to_pos _)).
  rewrite Z2Pos.id by exact Hpow.
  rewrite N2Z.inj_add, N2Z.inj_mul, N2Z.inj_pow, nat_N_Z.
  change (Z.of_N 10) with 10%Z.
  rewrite inject_Z_plus, inject_Z_mult.
  change (Z.of_N n2 # 1) with (inject_Z (Z.of_N n2)).
  assert (Hnz : ¬ inject_Z (10 ^ Z.of_nat k) == 0).
  { intros H. unfold Qeq in H. simpl in H. lia. }
  field. exact Hnz.
Qed.


(** What the source pattern extracts denotes the number the specification
    reads off the string. *)
Lemma search_to_double (s : string) :
  Re.search pattern s ≫= to_double =
    (λ d, spec_decimal_value d.1 d.2) <$> spec_first_decimal s.
Proof.
  induction s as [|c s IH]; [reflexivity|].
  cbn [Re.search spec_first_decimal]. rewrite match_here_pattern.
  destruct (Re.is_digit c) eqn:Hc; [|exact IH].
  cbn [span_digits]. rewrite Hc.
  pose proof (to_double_span (String c s)) as Hd.
  cbn [span_digits] in Hd. rewrite Hc in Hd.
  destruct (span_digits s) as [d1 r1]. cbn [fst] in Hd.
  destruct r1 as [|a r1].
  - cbn. specialize (Hd EmptyString). rewrite append_nil_r in Hd.
    rewrite Hd by done. f_equal. by rewrite spec_decimal_value_decimal.
  - destruct a as [[] [] [] [] [] [] [] []];
      try (cbn; specialize (Hd EmptyString); rewrite append_nil_r in Hd;
           rewrite Hd by done; f_equal; by rewrite spec_decimal_value_decimal).
    pose proof (span_digits_idem r1) as Hid.
    destruct (span_digits r1) as [d2 r3]. cbn [fst] in Hid.
    specialize (Hd (String "."%char d2)). cbn beta iota in Hd.
    rewrite bool_decide_eq_true_2 in Hd by exact Hid.
    cbn [mbind option_bind fmap option_fmap option_map fst snd].
    rewrite <-append_cons, Hd by done.
    by rewrite spec_decimal_value_decimal.
Qed.

Lemma spec_first_decimal_no_digit (s : string) :
  has_digit s = false → spec_first_decimal s = None.
Proof.
  induction s as [|c s IH]; [done|]. simpl.
  destruct (Re.is_digit c); [done|]. exact IH.
Qed.


Lemma parse_numeric_spec (s : string) : parse_numeric s = spec_parseNumeric s.
Proof.
  unfold parse_numeric, spec_parseNumeric. rewrite search_to_double.
  by destruct (spec_first_decimal s) as [[d1 d2]|].
Qed.

(** The matcher at work: the leftmost match, greedy, with the dot taken even
    when no digit follows it; and a pattern that only matches by giving back
    a digit. *)
Example search_examples :
  Re.search pattern "55.5 (General)" = Some "55.5" ∧
  Re.search pattern "about 12. or so" = Some "12." ∧
  Re.search pattern "v1.2.3" = Some "1.2" ∧
  Re.search pattern "-0.75" = Some "0.75" ∧
  Re.search pattern "not applicable" = None ∧
  Re.search [(Re.Digit, Re.Star); (Re.Digit, Re.One)] "ab123" = Some "123".
Proof. repeat split; reflexivity. Qed.

Example spec_parseNumeric_examples :
  spec_first_decimal "about 12. or so" = Some ("12", "") ∧
  spec_first_decimal "ab 12.50 cd 7" = Some ("12", "50") ∧
  bool_decide (spec_parseNumeric "ab 12.50 cd 7" = Q2Qc 12.5) = true ∧
  bool_decide (spec_parseNumeric "0" = Q2Qc 0) = true.
Proof. repeat split; vm_compute; reflexivity. Qed.

Example strip_examples :
  strip "  CS " = "CS" ∧ strip "M.Pharm  " = "M.Pharm" ∧ strip "   " = "" ∧
  strip "Software Systems" = "Software Systems".
Proof. repeat split; reflexivity. Qed.

Lemma Qc_max_spec (x y : float) :
  (x ≤ Qc_max x y)%Qc ∧ (y ≤ Qc_max x y)%Qc ∧ (Qc_max x y = x ∨ Qc_max x y = y).
Proof.
  unfold Qc_max. case_decide as H.
  - split; [done|]. split; [apply Qcle_refl|by right].
  - split; [apply Qcle_refl|]. split; [|by left].
    apply Qclt_le_weak, Qcnot_le_lt, H.
Qed.

Lemma Qc_min_spec (x y : float) :
  (Qc_min x y ≤ x)%Qc ∧ (Qc_min x y ≤ y)%Qc ∧ (Qc_min x y = x ∨ Qc_min x y = y).
Proof.
  unfold Qc_min. case_decide as H.
  - split; [apply Qcle_refl|]. split; [done|by left].
  - split; [|split; [apply Qcle_refl|by right]].
    apply Qclt_le_weak, Qcnot_le_lt, H.
Qed.

(** ** Columns *)

Lemma getitem_Ok (df_ : DataFrame) (c : string) :
  c ∈ columns df_ → getitem df_ c = Ok ((λ r, cell r c) <$> rows df_).
Proof. intros H. unfold getitem. by rewrite decide_True. Qed.

Lemma setitem_fmap (df_ : DataFrame) (c : string) (f : row → value) :
  setitem df_ c (f <$> rows df_) =
    Ok (mkDF (if decide (c ∈ columns df_) then columns df_ else columns df_ ++ [c])
             ((λ r, <[c := f r]> r) <$> rows df_)).
Proof.
  unfold setitem. rewrite decide_True by apply length_fmap.
  by rewrite zip_with_fmap_r, zip_with_diag.
Qed.

Lemma max_axis1_floats (df_ : DataFrame) :
  "HD Core" ∈ columns df_ → "HD SS" ∈ columns df_ →
  Forall (λ r, ∃ x y, r !! "HD Core" = Some (VFloat x) ∧ r !! "HD SS" = Some (VFloat y))
         (rows df_) →
  max_axis1 df_ ["HD Core"; "HD SS"] = Ok (hd_score_of <$> rows df_).
Proof.
  intros H1 H2 Hrows. unfold max_axis1.
  cbn [mapM]. rewrite !getitem_Ok by done. cbn.
  apply mapM_Ok_fmap. intros r Hr.
  rewrite Forall_forall in Hrows. destruct (Hrows r Hr) as (x & y & Hx & Hy).
  unfold hd_score_of, cell. cbn. by rewrite Hx, Hy.
Qed.

Section loader_facts.

Variable float_repr : float → string.

Lemma clean_numeric_cell (v : value) :
  astype_float
    (fillna 0 (to_numeric_coerce (str_extract pattern (astype_str float_repr v)))) =
  Ok (clean_cell float_repr v).
Proof.
  unfold clean_cell, parse_numeric, astype_str, str_extract.
  destruct (Re.search pattern (py_str float_repr v)) as [m|]; [|reflexivity].
  cbn. by destruct (to_double m).
Qed.

Lemma clean_numeric_cells (s : list value) :
  clean_numeric float_repr s = Ok (clean_cell float_repr <$> s).
Proof.
  unfold clean_numeric. rewrite <-!list_fmap_compose.
  induction s as [|v s IH]; [reflexivity|].
  cbn [fmap list_fmap mapM compose] in *.
  rewrite clean_numeric_cell. cbn. rewrite IH. reflexivity.
Qed.

Lemma clean_column_eq (df_ : DataFrame) (c : string) :
  clean_column float_repr df_ c =
    if decide (c ∈ columns df_) then Ok (mkDF (columns df_) (clean_row float_repr c <$> rows df_))
    else Raise (KeyError c).
Proof.
  unfold clean_column, getitem. case_decide as Hc; [|reflexivity].
  cbn. rewrite clean_numeric_cells. cbn. rewrite <-list_fmap_compose.
  rewrite setitem_fmap. by rewrite decide_True.
Qed.

Lemma strip_column_eq (df_ : DataFrame) (c : string) :
  strip_column float_repr df_ c =
    Ok (if decide (c ∈ columns df_) then mkDF (columns df_) (strip_row float_repr c <$> rows df_)
        else df_).
Proof.
  unfold strip_column, getitem. case_decide as Hc; [|reflexivity].
  cbn. rewrite <-!list_fmap_compose.
  rewrite setitem_fmap. by rewrite decide_True.
Qed.

Lemma clean_rows_floats (r : row) :
  let r' := clean_row float_repr "HD SS" (clean_row float_repr "HD Core" (clean_row float_repr "GATE Score" r)) in
  ∃ x y, r' !! "HD Core" = Some (VFloat x) ∧ r' !! "HD SS" = Some (VFloat y).
Proof.
  unfold clean_row, clean_cell. eexists _, _. split.
  - rewrite lookup_insert_ne by done. apply lookup_insert_eq.
  - apply lookup_insert_eq.
Qed.

(** The loader in one piece: read, relabel, then the same row function on
    every row. *)
Lemma load_data_eq (fs : filesystem) (path : string) :
  load_data float_repr fs path =
    raw ← from_option Ok (Raise FileNotFoundError) (fs !! path);
    df0 ← relabel strip (DataFrame_of_records raw) ≫= relabel rename;
    if decide ("GATE Score" ∈ columns df0) then
      if decide ("HD Core" ∈ columns df0) then
        if decide ("HD SS" ∈ columns df0) then Ok (normalize_frame float_repr df0)
        else Raise (KeyError "HD SS")
      else Raise (KeyError "HD Core")
    else Raise (KeyError "GATE Score").
Proof.
  unfold load_data. destruct (fs !! path) as [raw|]; [|reflexivity].
  cbn [from_option]. rewrite !bind_Ok.
  destruct (relabel strip (DataFrame_of_records raw)) as [df1|]; [|reflexivity].
  rewrite !bind_Ok.
  destruct (relabel rename df1) as [df0|]; [|reflexivity]. rewrite !bind_Ok.
  rewrite clean_column_eq. case_decide as H1; [|reflexivity]. rewrite bind_Ok.
  rewrite clean_column_eq. cbn [columns rows].
  case_decide as H2; [|reflexivity]. rewrite bind_Ok.
  rewrite clean_column_eq. cbn [columns rows].
  case_decide as H3; [|reflexivity]. rewrite bind_Ok.
  rewrite max_axis1_floats; cbn [columns rows]; [|done|done|].
  2:{ rewrite <-!list_fmap_compose. apply Forall_fmap, Forall_forall.
      intros r _. apply clean_rows_floats. }
  rewrite bind_Ok. rewrite <-!list_fmap_compose.
  pose proof (setitem_fmap (mkDF (columns df0)
    ((clean_row float_repr "HD SS" ∘ clean_row float_repr "HD Core" ∘ clean_row float_repr "GATE Score") <$> rows df0))
    "HD Score" hd_score_of) as Hset.
  cbn [columns rows] in Hset. rewrite <-!list_fmap_compose in Hset.
  rewrite Hset. clear Hset. rewrite bind_Ok.
  rewrite !strip_column_eq. rewrite bind_Ok, strip_column_eq.
  f_equal.
  unfold normalize_frame. f_equal.
  assert (Hb : ∀ c, c ≠ "HD Score" →
    (c ∈ (if decide ("HD Score" ∈ columns df0) then columns df0
          else columns df0 ++ ["HD Score"])) ↔ c ∈ columns df0).
  { intros c Hc. case_decide; [done|]. rewrite elem_of_app, list_elem_of_singleton.
    tauto. }
  unfold normalize_row.
  destruct (decide ("ME Branch" ∈ _)) as [Hm|Hm]; rewrite Hb in Hm by done;
    [rewrite (bool_decide_eq_true_2 _ Hm)|rewrite (bool_decide_eq_false_2 _ Hm)]; cbn;
  (destruct (decide ("Campus" ∈ _)) as [Hc|Hc]; rewrite Hb in Hc by done;
    [rewrite (bool_decide_eq_true_2 _ Hc)|rewrite (bool_decide_eq_false_2 _ Hc)]); cbn;
  rewrite <-?list_fmap_compose; reflexivity.
Qed.

Abbreviation parse_cell r c := (parse_numeric (py_str float_repr (cell r c))).

Lemma normalize_row_scores (b1 b2 : bool) (r0 : row) :
  let r := normalize_row float_repr b1 b2 r0 in
  r !! "GATE Score" = Some (VFloat (parse_cell r0 "GATE Score")) ∧
  r !! "HD Core" = Some (VFloat (parse_cell r0 "HD Core")) ∧
  r !! "HD SS" = Some (VFloat (parse_cell r0 "HD SS")) ∧
  r !! "HD Score" =
    Some (VFloat (Qc_max (parse_cell r0 "HD Core") (parse_cell r0 "HD SS"))).
Proof.
  cbv zeta. unfold normalize_row, hd_score_row, hd_score_of, strip_row, clean_row,
    clean_cell, cell.
  destruct b1, b2;
    repeat (rewrite lookup_insert_eq || rewrite lookup_insert_ne by done || cbn [default]);
    done.
Qed.

End loader_facts.

(** ** Relabelling and the rows of the loaded frame *)

Lemma NoDup_fmap_inj_on {A B} (f : A → B) (l : list A) (x y : A) :
  NoDup (f <$> l) → x ∈ l → y ∈ l → f x = f y → x = y.
Proof.
  induction l as [|a l IH]; intros Hnd Hx Hy Hxy; [by inv Hx|].
  cbn in Hnd. apply NoDup_cons in Hnd as [Ha Hnd].
  inv Hx; inv Hy; try done.
  - exfalso. apply Ha. rewrite Hxy. by apply list_elem_of_fmap_2.
  - exfalso. apply Ha. rewrite <-Hxy. by apply list_elem_of_fmap_2.
  - by apply IH.
Qed.

Lemma relabel_row_lookup (f : string → string) (cols : list string) (r : row) (k : string) :
  NoDup (f <$> cols) → (∀ j, is_Some (r !! j) → j ∈ cols) → k ∈ cols →
  relabel_row f r !! f k = r !! k.
Proof.
  intros Hnd Hdom Hk. unfold relabel_row.
  assert (Hnd' : NoDup ((prod_map f id <$> map_to_list r).*1)).
  { rewrite <-list_fmap_compose.
    rewrite (list_fmap_ext _ (f ∘ fst) (map_to_list r)) by (by intros ? [] ?).
    rewrite list_fmap_compose. apply NoDup_fmap_2_strong.
    - intros x y Hx Hy. apply (NoDup_fmap_inj_on f cols); [done| |].
      + apply list_elem_of_fmap in Hx as [[j v] [-> Hjv]].
        apply Hdom. apply elem_of_map_to_list in Hjv. eauto.
      + apply list_elem_of_fmap in Hy as [[j v] [-> Hjv]].
        apply Hdom. apply elem_of_map_to_list in Hjv. eauto.
    - apply NoDup_fst_map_to_list. }
  destruct (r !! k) as [v|] eqn:Hr.
  - apply elem_of_list_to_map_1; [done|].
    apply list_elem_of_fmap. exists (k, v). split; [done|].
    by apply elem_of_map_to_list.
  - apply not_elem_of_list_to_map_1. intros Hin.
    apply list_elem_of_fmap in Hin as [[j v] [Hj Hjv]].
    apply list_elem_of_fmap in Hjv as [[j' v'] [Heq Hjv]].
    cbn in Heq, Hj. inv Heq.
    apply elem_of_map_to_list in Hjv.
    assert (j' = k) as ->; [|congruence].
    apply (NoDup_fmap_inj_on f cols); eauto.
Qed.

Lemma relabel_row_dom (f : string → string) (cols : list string) (r : row) (j : string) :
  (∀ j, is_Some (r !! j) → j ∈ cols) →
  is_Some (relabel_row f r !! j) → j ∈ f <$> cols.
Proof.
  intros Hdom [v Hv]. unfold relabel_row in Hv.
  apply elem_of_list_to_map_2 in Hv.
  apply list_elem_of_fmap in Hv as [[j' v'] [Heq Hjv]]. inv Heq.
  apply list_elem_of_fmap_2, Hdom. apply elem_of_map_to_list in Hjv. eauto.
Qed.

Lemma relabel_Ok (f : string → string) (df_ df' : DataFrame) :
  relabel f df_ = Ok df' →
  NoDup (f <$> columns df_) ∧ columns df' = f <$> columns df_ ∧
  rows df' = relabel_row f <$> rows df_.
Proof. unfold relabel. case_decide; [|done]. intros [= <-]. done. Qed.

Lemma DataFrame_of_records_lookup (raw : list row) (r : row) (k : string) :
  r ∈ raw →
  (r ∪ gset_to_gmap VNaN (labels_of raw) : row) !! k =
    match r !! k with
    | Some v => Some v
    | None => if decide (k ∈ labels_of raw) then Some VNaN else None
    end.
Proof.
  intros Hr. rewrite lookup_union. rewrite lookup_gset_to_gmap.
  destruct (r !! k) as [v|]; cbn.
  - by destruct (guard _).
  - case_decide; [by rewrite option_guard_True|by rewrite option_guard_False].
Qed.

Lemma relabelled_rows (raw : list row) (df0 : DataFrame) :
  relabel strip (DataFrame_of_records raw) ≫= relabel rename = Ok df0 →
  rows df0 = relabelled_row raw <$> raw ∧
  ∀ r k, r ∈ raw → k ∈ labels_of raw →
    relabelled_row raw r !! rename (strip k) =
      Some (default VNaN (r !! k)).
Proof.
  intros H. destruct (relabel strip (DataFrame_of_records raw)) as [df1|] eqn:H1; [|done].
  rewrite bind_Ok in H.
  apply relabel_Ok in H1 as (Hnd1 & Hc1 & Hr1).
  apply relabel_Ok in H as (Hnd2 & Hc2 & Hr2).
  cbn [DataFrame_of_records columns rows] in *. fold (labels_of raw) in *.
  split.
  { rewrite Hr2, Hr1, <-!list_fmap_compose. reflexivity. }
  intros r k Hr Hk. unfold relabelled_row.
  set (r1 := (r ∪ gset_to_gmap VNaN (labels_of raw) : row)).
  assert (Hdom1 : ∀ j, is_Some (r1 !! j) → j ∈ elements (labels_of raw)).
  { intros j [v Hv]. unfold r1 in Hv. rewrite DataFrame_of_records_lookup in Hv by done.
    apply elem_of_elements.
    destruct (r !! j) eqn:Hj.
    - unfold labels_of. apply elem_of_union_list. exists (dom r). split.
      + by apply list_elem_of_fmap_2.
      + apply elem_of_dom. eauto.
    - by case_decide. }
  rewrite (relabel_row_lookup rename (strip <$> elements (labels_of raw))).
  - rewrite (relabel_row_lookup strip (elements (labels_of raw))); try done.
    + unfold r1. rewrite DataFrame_of_records_lookup by done.
      destruct (r !! k); [done|]. by rewrite decide_True.
    + by apply elem_of_elements.
  - by rewrite <-Hc1.
  - intros j Hj. by apply (relabel_row_dom strip _ r1).
  - apply list_elem_of_fmap_2. by apply elem_of_elements.
Qed.

(** ** The loaded frame *)

Lemma sample_df_loaded : load_data repr_unused sample_fs DATA_PATH = Ok sample_df.
Proof. vm_compute. reflexivity. Qed.

Example sample_df_scores :
  (λ r : row, (r !! "GATE Score", r !! "HD Core", r !! "HD SS", r !! "HD Score",
               r !! "ME Branch")) <$> rows sample_df =
  [ (Some (VFloat (Q2Qc 55.5)), Some (VFloat (Q2Qc 0)), Some (VFloat (Q2Qc 0)),
     Some (VFloat (Q2Qc 0)), Some (VStr "CS"));
    (Some (VFloat (Q2Qc 0)), Some (VFloat (Q2Qc 212)), Some (VFloat (Q2Qc 198.5)),
     Some (VFloat (Q2Qc 212)), Some (VStr "CS"));
    (Some (VFloat (Q2Qc 0)), Some (VFloat (Q2Qc 0)), Some (VFloat (Q2Qc 0)),
     Some (VFloat (Q2Qc 0)), Some (VStr "Mech")) ].
Proof. vm_compute. reflexivity. Qed.

Lemma load_data_normalized (float_repr : float → string) (fs : filesystem)
    (path : string) (df_ : DataFrame) :
  load_data float_repr fs path = Ok df_ → normalized df_.
Proof.
  rewrite load_data_eq. intros H.
  destruct (fs !! path) as [raw|]; [|done]. cbn [from_option] in H.
  rewrite bind_Ok in H.
  destruct (relabel strip (DataFrame_of_records raw) ≫= relabel rename) as [df0|]; [|done].
  rewrite bind_Ok in H. repeat case_decide; try done. inv H.
  unfold normalized, normalize_frame. cbn [columns rows]. split; [|split].
  - case_decide; [done|]. apply elem_of_app. by left.
  - case_decide; [done|]. apply elem_of_app. right. by apply list_elem_of_singleton.
  - apply Forall_fmap, Forall_forall. intros r0 _.
    destruct (normalize_row_scores float_repr
                (bool_decide ("ME Branch" ∈ columns df0))
                (bool_decide ("Campus" ∈ columns df0)) r0) as (Hg & _ & _ & Hh).
    eexists _, _. split; [exact Hg|exact Hh].
Qed.

(** The loaded cell of a score column, from the raw cell under the label
    that is renamed to it. *)
Lemma load_data_score_cell (float_repr : float → string) (fs : filesystem)
    (path : string) (df_ : DataFrame) (raw : list row) (i : nat) (r : row)
    (k c : string) :
  load_data float_repr fs path = Ok df_ → fs !! path = Some raw →
  raw !! i = Some r → k ∈ labels_of raw →
  rename (strip k) = c → c ∈ ["GATE Score"; "HD Core"; "HD SS"] →
  ∃ r', rows df_ !! i = Some r' ∧
        r' !! c = Some (VFloat (parse_numeric (py_str float_repr (default VNaN (r !! k))))).
Proof.
  rewrite load_data_eq. intros H Hfs Hi Hk <- Hin.
  rewrite Hfs in H. cbn [from_option] in H. rewrite bind_Ok in H.
  destruct (relabel strip (DataFrame_of_records raw) ≫= relabel rename)
    as [df0|] eqn:Hrel; [|done].
  rewrite bind_Ok in H. repeat case_decide; try done. inv H.
  apply relabelled_rows in Hrel as [Hrows Hlook].
  cbn [normalize_frame rows]. rewrite Hrows, <-list_fmap_compose, list_lookup_fmap, Hi.
  eexists. split; [reflexivity|]. cbn [compose].
  specialize (Hlook r k (list_elem_of_lookup_2 _ _ _ Hi) Hk).
  destruct (normalize_row_scores float_repr
              (bool_decide ("ME Branch" ∈ columns df0))
              (bool_decide ("Campus" ∈ columns df0))
              (relabelled_row raw r)) as (Hg & Hco & Hs & _).
  unfold cell in Hg, Hco, Hs.
  rewrite !elem_of_cons in Hin.
  destruct Hin as [Hin|[Hin|[Hin|Hin]]]; [| | |by inv Hin];
    rewrite Hin in Hlook |- *; rewrite Hlook in *; assumption.
Qed.

(** ** Numeric parsing *)



(** ** The derived score *)

(** C2. In every row of the frame the loader returns, ["HD Score"] is the
    larger of the row's parsed ["HD Core"] and ["HD SS"]. *)
Theorem load_data_hd_score (float_repr : float → string) (fs : filesystem)
    (path : string) (df_ : DataFrame) (r : row) :
  load_data float_repr fs path = Ok df_ → r ∈ rows df_ →
  ∃ c s h : float,
    r !! "HD Core" = Some (VFloat c) ∧ r !! "HD SS" = Some (VFloat s) ∧
    r !! "HD Score" = Some (VFloat h) ∧
    h = Qc_max c s ∧ (c ≤ h)%Qc ∧ (s ≤ h)%Qc ∧ (h = c ∨ h = s).
Proof.
  rewrite load_data_eq. intros H Hr.
  destruct (fs !! path) as [raw|]; [|done]. cbn [from_option] in H.
  rewrite bind_Ok in H.
  destruct (relabel strip (DataFrame_of_records raw) ≫= relabel rename) as [df0|]; [|done].
  rewrite bind_Ok in H. repeat case_decide; try done. inv H.
  cbn [normalize_frame rows] in Hr.
  apply list_elem_of_fmap in Hr as [r0 [-> _]].
  destruct (normalize_row_scores float_repr
              (bool_decide ("ME Branch" ∈ columns df0))
              (bool_decide ("Campus" ∈ columns df0)) r0) as (_ & Hc & Hs & Hh).
  eexists _, _, _. split; [exact Hc|]. split; [exact Hs|]. split; [exact Hh|].
  split; [reflexivity|]. apply Qc_max_spec.
Qed.

Lemma load_data_hd_score_witness :
  ∃ c s h : float,
    (sample_df.(rows) !!! 1%nat : row) !! "HD Core" = Some (VFloat c) ∧
    (sample_df.(rows) !!! 1%nat : row) !! "HD SS" = Some (VFloat s) ∧
    (sample_df.(rows) !!! 1%nat : row) !! "HD Score" = Some (VFloat h) ∧
    h = Qc_max c s ∧ (c ≤ h)%Qc ∧ (s ≤ h)%Qc ∧ (h = c ∨ h = s).
Proof.
  apply (load_data_hd_score repr_unused sample_fs DATA_PATH sample_df).
  - exact sample_df_loaded.
  - by_compute.
Defined.

(** C10. A score field that is absent from a record, null, or [nan] is
    loaded as 0.0, and so is one whose text has no digit: the loaded frame
    does not tell them apart. *)
Theorem load_data_missing_field (float_repr : float → string) (fs : filesystem)
    (path : string) (df_ : DataFrame) (raw : list row) (i : nat) (r : row)
    (k c : string) :
  load_data float_repr fs path = Ok df_ → fs !! path = Some raw →
  raw !! i = Some r → k ∈ labels_of raw →
  rename (strip k) = c → c ∈ ["GATE Score"; "HD Core"; "HD SS"] →
  r !! k = None ∨ r !! k = Some VNone ∨ r !! k = Some VNaN ∨
    (∃ s, r !! k = Some (VStr s) ∧ has_digit s = false) →
  ∃ r', rows df_ !! i = Some r' ∧ r' !! c = Some (VFloat 0%Qc).
Proof.
  intros H Hfs Hi Hk Hc Hin Hv.
  destruct (load_data_score_cell _ _ _ _ _ _ _ _ _ H Hfs Hi Hk Hc Hin) as (r' & Hr' & Hcell).
  exists r'. split; [done|]. rewrite Hcell. do 2 f_equal.
  destruct Hv as [->|[->|[->|(s & -> & Hs')]]]; try reflexivity.
  cbn [default py_str]. rewrite parse_numeric_spec. unfold spec_parseNumeric.
  by rewrite spec_first_decimal_no_digit.
Qed.

Lemma load_data_missing_field_witness :
  ∃ r', rows sample_df !! 0%nat = Some r' ∧ r' !! "HD SS" = Some (VFloat 0%Qc).
Proof.
  apply (load_data_missing_field repr_unused sample_fs DATA_PATH sample_df
           sample_records 0
           {[ "GATE Score" := VStr "55.5 (General)"; "HD Core" := VStr "0";
              "HD SS" := VNone; "ME Branch" := VStr " CS "; "Campus" := VStr "Pilani" ]}
           "HD SS" "HD SS").
  - exact sample_df_loaded.
  - by_compute.
  - by_compute.
  - by_compute.
  - by_compute.
  - by_compute.
  - right. left. by_compute.
Defined.

(** A record without the key, beside one that has it, and a legacy label
    that is renamed. *)
Example absent_field_example :
  let raw : list row :=
    [ {[ "GATE or GPAT score (if not through GATE/GPAT then put 0)" := VStr "41";
         "HD Core" := VStr "1"; " HD SS " := VStr "2" ]};
      {[ "GATE or GPAT score (if not through GATE/GPAT then put 0)" := VNone;
         "HD Core" := VStr "n/a" ]} ] in
  (λ d, (λ r : row, (this (gate_score r), r !! "HD Core", r !! "HD SS", this (hd_score r)))
          <$> rows d) <$> load_data repr_unused {[ DATA_PATH := raw ]} DATA_PATH
  = Ok [ (41%Q, Some (VFloat (Q2Qc 1)), Some (VFloat (Q2Qc 2)), 2%Q);
         (0%Q, Some (VFloat (Q2Qc 0)), Some (VFloat (Q2Qc 0)), 0%Q) ].
Proof. vm_compute. reflexivity. Qed.

(** ** Masks and duplicates *)

Lemma getitem_mask_fmap (df_ : DataFrame) (f : row → bool) :
  rows (getitem_mask df_ (f <$> rows df_)) = filter (λ r, f r = true) (rows df_).
Proof.
  unfold getitem_mask. cbn [rows]. induction (rows df_) as [|r l IH]; [reflexivity|].
  cbn [fmap list_fmap zip zip_with]. rewrite !filter_cons. cbn [snd].
  destruct (decide (f r = true)); cbn [fmap list_fmap fst]; by rewrite <-IH.
Qed.

Lemma mask_and_fmap {A} (f g : A → bool) (l : list A) :
  mask_and (f <$> l) (g <$> l) = (λ x, f x && g x) <$> l.
Proof.
  unfold mask_and. by rewrite zip_with_fmap_l, zip_with_fmap_r, zip_with_diag.
Qed.

Lemma elem_of_keep_first (l : list row) (r : row) :
  r ∈ keep_first l ↔ r ∈ l.
Proof.
  induction l as [|x l IH]; [done|]. cbn [keep_first].
  rewrite !elem_of_cons, list_elem_of_filter, IH.
  destruct (decide (r = x)); intuition congruence.
Qed.

Lemma NoDup_keep_first (l : list row) : NoDup (keep_first l).
Proof.
  induction l as [|x l IH]; [constructor|]. cbn [keep_first].
  constructor.
  - rewrite list_elem_of_filter. intros [Hne _]. by apply Hne.
  - by apply NoDup_filter.
Qed.

Lemma sublist_keep_first (l : list row) : keep_first l `sublist_of` l.
Proof.
  induction l as [|x l IH]; [constructor|]. cbn [keep_first].
  apply sublist_skip. etrans; [apply sublist_filter|exact IH].
Qed.

Example keep_first_example :
  keep_first [3; 1; 3; 2; 1; 3]%nat = [3; 1; 2]%nat.
Proof. reflexivity. Qed.


(** ** The mode splitter *)

Lemma normalized_series (df_ : DataFrame) :
  normalized df_ →
  series_gt ((λ r, cell r "GATE Score") <$> rows df_) 0 =
    Ok ((λ r, bool_decide (0 < gate_score r)%Qc) <$> rows df_) ∧
  series_gt ((λ r, cell r "HD Score") <$> rows df_) 0 =
    Ok ((λ r, bool_decide (0 < hd_score r)%Qc) <$> rows df_) ∧
  series_eq ((λ r, cell r "GATE Score") <$> rows df_) (VInt 0) =
    (λ r, bool_decide (gate_score r = 0%Qc)) <$> rows df_.
Proof.
  intros (Hg & Hh & Hrows). rewrite Forall_forall in Hrows.
  unfold series_gt, series_eq. split; [|split].
  - apply mapM_fmap_Ok_fmap.
    intros r Hr. destruct (Hrows r Hr) as (g & h & Hrg & Hrh).
    unfold gate_score, cell. by rewrite Hrg.
  - apply mapM_fmap_Ok_fmap.
    intros r Hr. destruct (Hrows r Hr) as (g & h & Hrg & Hrh).
    unfold hd_score, cell. by rewrite Hrh.
  - rewrite <-list_fmap_compose. apply list_fmap_ext.
    intros i r Hi. destruct (Hrows r (list_elem_of_lookup_2 _ _ _ Hi)) as (g & h & Hrg & Hrh).
    unfold gate_score, cell, compose, cell_eq, float_of. rewrite Hrg.
    cbn [default as_num]. by rewrite Z2Qc_inj_0.
Qed.

Lemma split_modes_eq (df_ : DataFrame) :
  normalized df_ →
  split_modes df_ =
    Ok (mkDF (columns df_)
             (keep_first (filter (λ r, (0 < gate_score r)%Qc) (rows df_))),
        mkDF (columns df_)
             (keep_first
                (filter (λ r, gate_score r = 0%Qc ∧ (0 < hd_score r)%Qc) (rows df_)))).
Proof.
  intros Hn. destruct (normalized_series df_ Hn) as (H1 & H2 & H3).
  destruct Hn as (Hg & Hh & _).
  unfold split_modes.
  rewrite (getitem_Ok _ "GATE Score"), (getitem_Ok _ "HD Score") by done.
  rewrite bind_Ok, H1, !bind_Ok, H2, bind_Ok, H3. rewrite mask_and_fmap.
  unfold drop_duplicates. rewrite !getitem_mask_fmap. cbn [columns getitem_mask].
  f_equal; f_equal; f_equal; f_equal.
  - apply list_filter_iff. intros r. by rewrite bool_decide_eq_true.
  - apply list_filter_iff. intros r.
    by rewrite andb_true_iff, !bool_decide_eq_true.
Qed.

Lemma sample_df_normalized : normalized sample_df.
Proof.
  apply (load_data_normalized repr_unused sample_fs DATA_PATH).
  exact sample_df_loaded.
Qed.

Example sample_split_sizes :
  (length (rows sample_df), length (rows sample_split.1), length (rows sample_split.2))
  = (3, 1, 1)%nat.
Proof. vm_compute. reflexivity. Qed.



(** C4. The two subsets share no row; a row of either subset has a positive
    GATE score or else GATE score zero with a positive HD score, never both;
    a row with both scores zero is in neither subset. *)
Theorem split_modes_disjoint (df_ gate_df hd_df : DataFrame) :
  normalized df_ → split_modes df_ = Ok (gate_df, hd_df) →
  (∀ r, ¬ (r ∈ rows gate_df ∧ r ∈ rows hd_df)) ∧
  (∀ r, r ∈ rows gate_df ∨ r ∈ rows hd_df →
        let A := (0 < gate_score r)%Qc in
        let B := gate_score r = 0%Qc ∧ (0 < hd_score r)%Qc in
        (A ∧ ¬ B) ∨ (¬ A ∧ B)) ∧
  (∀ r, gate_score r = 0%Qc → hd_score r = 0%Qc →
        (r ∉ rows gate_df) ∧ (r ∉ rows hd_df)).
Proof.
  intros Hn. rewrite split_modes_eq by done. intros [= <- <-]. cbn [rows].
  assert (Hirr : ∀ x : float, x = 0%Qc → ¬ (0 < x)%Qc).
  { intros x -> H. by apply Qclt_not_eq in H. }
  split; [|split].
  - intros r. rewrite !elem_of_keep_first, !list_elem_of_filter.
    intros [[Hg _] [[Hz _] _]]. by apply (Hirr _ Hz).
  - intros r. rewrite !elem_of_keep_first, !list_elem_of_filter.
    cbv zeta. intros [[Hg _]|[[Hz Hh] _]].
    + left. split; [done|]. intros [Hz _]. by apply (Hirr _ Hz).
    + right. split; [by apply Hirr|done].
  - intros r Hz Hh. rewrite !elem_of_keep_first, !list_elem_of_filter.
    split.
    + intros [Hg _]. by apply (Hirr _ Hz).
    + intros [[_ Hp] _]. by apply (Hirr _ Hh).
Qed.

Lemma split_modes_disjoint_witness :
  (∀ r, ¬ (r ∈ rows sample_split.1 ∧ r ∈ rows sample_split.2)) ∧
  (∀ r, r ∈ rows sample_split.1 ∨ r ∈ rows sample_split.2 →
        let A := (0 < gate_score r)%Qc in
        let B := gate_score r = 0%Qc ∧ (0 < hd_score r)%Qc in
        (A ∧ ¬ B) ∨ (¬ A ∧ B)) ∧
  (∀ r, gate_score r = 0%Qc → hd_score r = 0%Qc →
        (r ∉ rows sample_split.1) ∧ (r ∉ rows sample_split.2)).
Proof.
  apply (split_modes_disjoint sample_df).
  - exact sample_df_normalized.
  - by_compute.
Defined.

(** ** The filter engine *)

Lemma cell_eq_VStr (s : string) (v : value) : cell_eq (VStr s) v = true ↔ v = VStr s.
Proof.
  unfold cell_eq. destruct v; cbn; try (split; [done|congruence]).
  rewrite bool_decide_eq_true. split; congruence.
Qed.

Lemma apply_filters_eq (f : filters) (df_ : DataFrame) :
  "ME Branch" ∈ columns df_ → "Campus" ∈ columns df_ →
  apply_filters f df_ = Ok (mkDF (columns df_) (filter (matches f) (rows df_))).
Proof.
  intros Hb Hc. unfold apply_filters.
  rewrite (getitem_Ok _ "ME Branch"), (getitem_Ok _ "Campus") by done.
  rewrite !bind_Ok. unfold series_isin, series_eq. rewrite <-!list_fmap_compose.
  rewrite !mask_and_fmap.
  case_decide as Hd.
  - rewrite ?bind_Ok, ?mask_and_fmap.
    pose proof (getitem_mask_fmap df_) as Hm. unfold getitem_mask in Hm |- *.
    cbn [rows] in Hm. f_equal. f_equal. rewrite Hm.
    apply list_filter_iff. intros r. unfold matches, compose.
    rewrite !andb_true_iff, !bool_decide_eq_true, cell_eq_VStr. tauto.
  - pose proof (getitem_mask_fmap df_) as Hm. unfold getitem_mask in Hm |- *.
    cbn [rows] in Hm. f_equal. f_equal. rewrite Hm.
    apply list_filter_iff. intros r. unfold matches, compose.
    rewrite !andb_true_iff, !bool_decide_eq_true. tauto.
Qed.

Lemma apply_filters_Ok (f : filters) (df_ out : DataFrame) :
  apply_filters f df_ = Ok out →
  "ME Branch" ∈ columns df_ ∧ "Campus" ∈ columns df_ ∧
  out = mkDF (columns df_) (filter (matches f) (rows df_)).
Proof.
  intros H.
  destruct (decide ("ME Branch" ∈ columns df_)) as [Hb|Hb].
  - destruct (decide ("Campus" ∈ columns df_)) as [Hc|Hc].
    + rewrite apply_filters_eq in H by done. by inv H.
    + unfold apply_filters, getitem in H.
      rewrite decide_True, (decide_False (P := "Campus" ∈ _)) in H by done. done.
  - unfold apply_filters, getitem in H. by rewrite decide_False in H.
Qed.

Lemma matches_merge (f1 f2 : filters) (r : row) :
  compatible f1 f2 → matches (merge f1 f2) r ↔ matches f2 r ∧ matches f1 r.
Proof.
  intros Hcomp. unfold matches, merge. cbn [branch_filter campus_filter branch_drill].
  rewrite !list_elem_of_fmap.
  setoid_rewrite list_elem_of_filter.
  split.
  - intros ((b & Hb & Hb2 & Hb1) & (c & Hc & Hc2 & Hc1) & Hd).
    assert (Hd12 : (branch_drill f2 ≠ "All branches" →
                    cell r "ME Branch" = VStr (branch_drill f2)) ∧
                   (branch_drill f1 ≠ "All branches" →
                    cell r "ME Branch" = VStr (branch_drill f1))).
    { case_decide as H1.
      - split; [exact Hd|]. intros Hne. by destruct Hne.
      - split; [|intros _; by apply Hd]. intros H2.
        destruct Hcomp as [Hc0|[Hc0|Hc0]]; [done|done|].
        rewrite <-Hc0. by apply Hd. }
    destruct Hd12 as [Hd2 Hd1]. repeat split; eauto.
  - intros (((b & Hb & Hb2) & (c & Hc & Hc2) & Hd2) &
            ((b' & Hb' & Hb1) & (c' & Hc' & Hc1) & Hd1)).
    assert (b' = b) as -> by congruence. assert (c' = c) as -> by congruence.
    split; [by exists b|]. split; [by exists c|].
    case_decide; [exact Hd2|exact Hd1].
Qed.

Example sample_filtered :
  (λ df_, length (rows df_)) <$> apply_filters sample_filters sample_df = Ok 2%nat ∧
  (λ df_, length (rows df_)) <$>
    apply_filters (merge sample_filters sample_filters') sample_df = Ok 1%nat.
Proof. split; vm_compute; reflexivity. Qed.

(** C5. The filter engine returns exactly the rows whose branch and campus
    are selected and, with a drill-down set, whose branch is the drill-down
    branch; an empty selection of branches or of campuses gives a frame
    without rows, not an error. *)
Theorem apply_filters_matches (f : filters) (df_ : DataFrame) :
  "ME Branch" ∈ columns df_ → "Campus" ∈ columns df_ →
  ∃ out, apply_filters f df_ = Ok out ∧
    rows out = filter (matches f) (rows df_) ∧
    (∀ r, r ∈ rows out ↔
       r ∈ rows df_ ∧
       (∃ b, cell r "ME Branch" = VStr b ∧ b ∈ branch_filter f ∧
             (branch_drill f ≠ "All branches" → b = branch_drill f)) ∧
       (∃ c, cell r "Campus" = VStr c ∧ c ∈ campus_filter f)) ∧
    (branch_filter f = [] ∨ campus_filter f = [] → rows out = []).
Proof.
  intros Hb Hc. eexists. split; [by apply apply_filters_eq|]. cbn [rows].
  split; [done|]. split.
  - intros r. rewrite list_elem_of_filter. unfold matches.
    rewrite !list_elem_of_fmap. split.
    + intros [((b & Hrb & Hbin) & (c & Hrc & Hcin) & Hd) Hr].
      split; [done|]. split.
      * exists b. split; [done|]. split; [done|]. intros Hne.
        specialize (Hd Hne). congruence.
      * by exists c.
    + intros (Hr & (b & Hrb & Hbin & Hd) & (c & Hrc & Hcin)).
      split; [|done]. split; [by exists b|]. split; [by exists c|].
      intros Hne. by rewrite Hrb, (Hd Hne).
  - intros Hempty. induction (rows df_) as [|r l IH]; [reflexivity|].
    rewrite filter_cons_False; [exact IH|].
    unfold matches. intros (Hbin & Hcin & _).
    destruct Hempty as [He|He]; rewrite He in *;
      [by apply elem_of_nil in Hbin|by apply elem_of_nil in Hcin].
Qed.

Lemma apply_filters_matches_witness :
  ∃ out, apply_filters sample_filters sample_df = Ok out ∧
    rows out = filter (matches sample_filters) (rows sample_df) ∧
    (∀ r, r ∈ rows out ↔
       r ∈ rows sample_df ∧
       (∃ b, cell r "ME Branch" = VStr b ∧ b ∈ branch_filter sample_filters ∧
             (branch_drill sample_filters ≠ "All branches" →
              b = branch_drill sample_filters)) ∧
       (∃ c, cell r "Campus" = VStr c ∧ c ∈ campus_filter sample_filters)) ∧
    (branch_filter sample_filters = [] ∨ campus_filter sample_filters = [] →
     rows out = []).
Proof.
  apply (apply_filters_matches sample_filters sample_df).
  - by_compute.
  - by_compute.
Defined.

(** Filtering twice with one configuration is filtering once. *)
Lemma apply_filters_idempotent (f : filters) (df_ : DataFrame) :
  "ME Branch" ∈ columns df_ → "Campus" ∈ columns df_ →
  apply_filters f df_ ≫= apply_filters f = apply_filters f df_.
Proof.
  intros Hb Hc. rewrite (apply_filters_eq f df_), bind_Ok by done.
  rewrite apply_filters_eq by done. cbn [columns rows]. do 2 f_equal.
  rewrite list_filter_filter. apply list_filter_iff. tauto.
Qed.

(** Without compatibility the two sides differ: drilling into "CS" and then
    into "Mech" leaves nothing, while the merge drills into "CS". *)
Example merge_incompatible :
  let f1 := mkFilters ["CS"; "Mech"] ["Goa"; "Pilani"] "CS" in
  let f2 := mkFilters ["CS"; "Mech"] ["Goa"; "Pilani"] "Mech" in
  ¬ compatible f1 f2 ∧
  (λ d, length (rows d)) <$> (apply_filters f1 sample_df ≫= apply_filters f2) = Ok 0%nat ∧
  (λ d, length (rows d)) <$> apply_filters (merge f1 f2) sample_df = Ok 2%nat.
Proof.
  cbv zeta. split; [|split; vm_compute; reflexivity].
  intros [H|[H|H]]; discriminate H.
Qed.

(** C6. Filtering with one configuration and then with a second is
    filtering once with their merge, for compatible configurations. *)
Theorem apply_filters_merge (f1 f2 : filters) (df_ : DataFrame) :
  compatible f1 f2 →
  "ME Branch" ∈ columns df_ → "Campus" ∈ columns df_ →
  apply_filters f1 df_ ≫= apply_filters f2 = apply_filters (merge f1 f2) df_ ∧
  ∃ out, apply_filters (merge f1 f2) df_ = Ok out.
Proof.
  intros Hcomp Hb Hc.
  rewrite (apply_filters_eq f1), bind_Ok by done.
  rewrite (apply_filters_eq f2), (apply_filters_eq (merge f1 f2)) by done.
  cbn [columns rows]. split; [|by eexists].
  f_equal. f_equal. rewrite list_filter_filter.
  apply list_filter_iff. intros r. by rewrite matches_merge.
Qed.

Lemma apply_filters_merge_witness :
  apply_filters sample_filters sample_df ≫= apply_filters sample_filters' =
    apply_filters (merge sample_filters sample_filters') sample_df ∧
  ∃ out, apply_filters (merge sample_filters sample_filters') sample_df = Ok out.
Proof.
  apply (apply_filters_merge sample_filters sample_filters' sample_df).
  - right. left. reflexivity.
  - by_compute.
  - by_compute.
Defined.

(** ** Order of the group keys *)

Lemma keys_le_cons (a b : string) (k1 k2 : list string) :
  keys_le (a :: k1) (b :: k2) ↔ (a = b ∧ keys_le k1 k2) ∨ (a ≠ b ∧ String.le a b).
Proof.
  unfold keys_le, String.le. cbn [keys_leb]. case_decide.
  - intuition.
  - rewrite Is_true_true. intuition.
Qed.

Global Instance keys_le_refl : Reflexive keys_le.
Proof.
  intros k. induction k as [|a k IH]; [reflexivity|].
  apply keys_le_cons. by left.
Qed.

Global Instance keys_le_trans : Transitive keys_le.
Proof.
  intros k1. induction k1 as [|a k1 IH]; intros [|b k2] [|c k3] H12 H23;
    try done.
  apply keys_le_cons in H12, H23. apply keys_le_cons.
  destruct H12 as [[-> H12]|[Hab H12]], H23 as [[-> H23]|[Hbc H23]].
  - left. split; [done|]. by eapply IH.
  - by right.
  - by right.
  - right. split.
    + intros ->. apply Hab. by apply (anti_symm String.le).
    + by etrans.
Qed.

Global Instance keys_le_total : Total keys_le.
Proof.
  intros k1. induction k1 as [|a k1 IH]; intros [|b k2].
  - by left.
  - by left.
  - by right.
  - rewrite !keys_le_cons. destruct (decide (a = b)) as [->|Hab].
    + destruct (IH k2); [left|right]; by left.
    + destruct (total String.le a b); [left|right]; right; split; done.
Qed.

Global Instance keys_le_antisym : AntiSymm (=) keys_le.
Proof.
  intros k1. induction k1 as [|a k1 IH]; intros [|b k2] H12 H21; try done.
  apply keys_le_cons in H12, H21.
  destruct H12 as [[-> H12]|[Hab H12]], H21 as [[Heq H21]|[Hba H21]].
  - f_equal. by apply IH.
  - congruence.
  - congruence.
  - exfalso. apply Hab. by apply (anti_symm String.le).
Qed.

Global Instance cutoff_le_trans : Transitive cutoff_le.
Proof. intros a b c. unfold cutoff_le. apply keys_le_trans. Qed.

Global Instance cutoff_le_total : Total cutoff_le.
Proof. intros a b. unfold cutoff_le. apply keys_le_total. Qed.

Lemma StronglySorted_keys_lt (l : list (list string)) :
  StronglySorted keys_le l → NoDup l → StronglySorted keys_lt l.
Proof.
  induction 1 as [|k l Hs IH Hall]; intros Hnd; [constructor|].
  apply NoDup_cons in Hnd as [Hk Hnd]. constructor; [by apply IH|].
  rewrite Forall_forall in Hall |- *. intros k' Hk'. split; [by apply Hall|].
  by intros ->.
Qed.

(** ** Grouping *)

Lemma zip_fmap_filter {A K} `{EqDecision K} (f : A → K) (k : K) (l : list A) :
  (filter (λ p, p.1 = k) (zip (f <$> l) l)).*2 = filter (λ x, f x = k) l.
Proof.
  induction l as [|x l IH]; [reflexivity|].
  cbn [fmap list_fmap zip zip_with]. rewrite !filter_cons. cbn [fst].
  destruct (decide (f x = k)); cbn [fmap list_fmap snd]; by rewrite <-IH.
Qed.

Lemma groupby_eq (df_ : DataFrame) (col : string) :
  aggregable df_ col →
  groupby df_ ["ME Branch"; "Campus"] =
    Ok ((λ k, (k, filter (λ r, key_of r = k) (rows df_))) <$> group_keys df_).
Proof.
  intros (Hb & Hc & _ & Hrows). unfold groupby.
  cbn [mapM]. rewrite (getitem_Ok _ "ME Branch"), (getitem_Ok _ "Campus") by done.
  rewrite !bind_Ok.
  rewrite (mapM_Ok_fmap _ key_of).
  2:{ intros r Hr. rewrite Forall_forall in Hrows.
      destruct (Hrows r Hr) as (b & c & x & Hrb & Hrc & _).
      unfold row_key, key_of, cell. cbn [mapM]. by rewrite Hrb, Hrc. }
  rewrite bind_Ok. cbv zeta. unfold group_keys. f_equal.
  apply list_fmap_ext. intros _ k _. f_equal. apply zip_fmap_filter.
Qed.

Lemma select_eq (df_ : DataFrame) (col : string) (ks : list (list string)) :
  aggregable df_ col →
  select df_ col ((λ k, (k, filter (λ r, key_of r = k) (rows df_))) <$> ks) =
    Ok ((λ k, (k, group_scores df_ col k)) <$> ks).
Proof.
  intros (_ & _ & Hcol & Hrows). unfold select.
  rewrite getitem_Ok, bind_Ok by done.
  apply mapM_fmap_Ok_fmap. intros k _. cbn [fst snd].
  rewrite (mapM_Ok_fmap _ (score_of col)); [reflexivity|].
  intros r Hr. apply list_elem_of_filter in Hr as [_ Hr].
  rewrite Forall_forall in Hrows.
  destruct (Hrows r Hr) as (b & c & x & _ & _ & Hx).
  unfold score_of, cell. by rewrite Hx.
Qed.

Lemma cutoff_table_eq (df_ : DataFrame) (col : string) :
  aggregable df_ col →
  cutoff_table df_ col =
    Ok (apply_format_mean <$> sort_by_key (stats_of df_ col <$> group_keys df_)).
Proof.
  intros Hagg. unfold cutoff_table.
  rewrite (groupby_eq _ col), bind_Ok by done.
  rewrite select_eq, bind_Ok by done. cbv zeta.
  by rewrite <-list_fmap_compose.
Qed.

Lemma group_keys_facts (df_ : DataFrame) :
  NoDup (group_keys df_) ∧ StronglySorted keys_le (group_keys df_) ∧
  ∀ k, k ∈ group_keys df_ ↔ ∃ r, r ∈ rows df_ ∧ key_of r = k.
Proof.
  unfold group_keys. split; [|split].
  - rewrite merge_sort_Permutation. apply NoDup_remove_dups.
  - apply (StronglySorted_merge_sort _).
  - intros k. rewrite merge_sort_Permutation, elem_of_remove_dups, list_elem_of_fmap.
    split; intros (r & H1 & H2); exists r; by split.
Qed.


(** ** Minimum, maximum and rounding *)

Lemma foldl_Qc_min (l : list float) (a : float) :
  let m := foldl Qc_min a l in
  m ∈ a :: l ∧ ∀ x, x ∈ a :: l → (m ≤ x)%Qc.
Proof.
  revert a. induction l as [|y l IH]; intros a; cbn [foldl].
  - split; [left|]. intros x Hx. apply list_elem_of_singleton in Hx as ->.
    apply Qcle_refl.
  - destruct (IH (Qc_min a y)) as [Hin Hle].
    destruct (Qc_min_spec a y) as (Ha & Hy & Hor). split.
    + apply elem_of_cons in Hin as [->|Hin].
      * destruct Hor as [->| ->]; [left|right; left].
      * right. by right.
    + intros x Hx. apply elem_of_cons in Hx as [->|Hx].
      * etrans; [apply Hle; left|exact Ha].
      * apply elem_of_cons in Hx as [->|Hx].
        -- etrans; [apply Hle; left|exact Hy].
        -- apply Hle. by right.
Qed.

Lemma foldl_Qc_max (l : list float) (a : float) :
  let m := foldl Qc_max a l in
  m ∈ a :: l ∧ ∀ x, x ∈ a :: l → (x ≤ m)%Qc.
Proof.
  revert a. induction l as [|y l IH]; intros a; cbn [foldl].
  - split; [left|]. intros x Hx. apply list_elem_of_singleton in Hx as ->.
    apply Qcle_refl.
  - destruct (IH (Qc_max a y)) as [Hin Hle].
    destruct (Qc_max_spec a y) as (Ha & Hy & Hor). split.
    + apply elem_of_cons in Hin as [->|Hin].
      * destruct Hor as [->| ->]; [left|right; left].
      * right. by right.
    + intros x Hx. apply elem_of_cons in Hx as [->|Hx].
      * etrans; [exact Ha|apply Hle; left].
      * apply elem_of_cons in Hx as [->|Hx].
        -- etrans; [exact Hy|apply Hle; left].
        -- apply Hle. by right.
Qed.

Lemma list_min_spec (l : list float) :
  l ≠ [] → list_min l ∈ l ∧ ∀ x, x ∈ l → (list_min l ≤ x)%Qc.
Proof. destruct l as [|a l]; [done|]. intros _. apply foldl_Qc_min. Qed.

Lemma list_max_spec (l : list float) :
  l ≠ [] → list_max l ∈ l ∧ ∀ x, x ∈ l → (x ≤ list_max l)%Qc.
Proof. destruct l as [|a l]; [done|]. intros _. apply foldl_Qc_max. Qed.



(** ** The cutoff table *)




(** ** From the loader to the tables *)

Lemma normalize_row_texts (float_repr : float → string) (b1 b2 : bool) (r0 : row) :
  let r := normalize_row float_repr b1 b2 r0 in
  (b1 = true → ∃ s, r !! "ME Branch" = Some (VStr s)) ∧
  (b2 = true → ∃ s, r !! "Campus" = Some (VStr s)).
Proof.
  cbv zeta. unfold normalize_row, strip_row. split; intros ->.
  - destruct b2; [rewrite lookup_insert_ne by done|]; rewrite lookup_insert_eq; eauto.
  - rewrite lookup_insert_eq. eauto.
Qed.

(** The frame of the loader can be aggregated on either score as soon as it
    has the branch and campus columns. *)
Lemma load_data_aggregable (float_repr : float → string) (fs : filesystem)
    (path : string) (df_ : DataFrame) :
  load_data float_repr fs path = Ok df_ →
  "ME Branch" ∈ columns df_ → "Campus" ∈ columns df_ →
  aggregable df_ "GATE Score" ∧ aggregable df_ "HD Score".
Proof.
  intros Hload Hb Hc. destruct (load_data_normalized _ _ _ _ Hload) as (Hg & Hh & _).
  rewrite load_data_eq in Hload.
  destruct (fs !! path) as [raw|]; [|done]. cbn [from_option] in Hload.
  rewrite bind_Ok in Hload.
  destruct (relabel strip (DataFrame_of_records raw) ≫= relabel rename) as [df0|]; [|done].
  rewrite bind_Ok in Hload. repeat case_decide; try done. inv Hload.
  assert (Hcol : ∀ c, c ≠ "HD Score" → c ∈ columns (normalize_frame float_repr df0) →
                 c ∈ columns df0).
  { intros c Hne. unfold normalize_frame. cbn [columns]. case_decide; [done|].
    rewrite elem_of_app, list_elem_of_singleton. tauto. }
  apply Hcol in Hb as Hb0; [|done]. apply Hcol in Hc as Hc0; [|done].
  assert (Hrows : Forall (λ r, ∃ (b c : string) (g h : float),
                    r !! "ME Branch" = Some (VStr b) ∧ r !! "Campus" = Some (VStr c) ∧
                    r !! "GATE Score" = Some (VFloat g) ∧
                    r !! "HD Score" = Some (VFloat h))
                  (rows (normalize_frame float_repr df0))).
  { unfold normalize_frame. cbn [rows]. apply Forall_fmap, Forall_forall. intros r0 _.
    rewrite !bool_decide_eq_true_2 by done.
    destruct (normalize_row_scores float_repr true true r0) as (Hgs & _ & _ & Hhs).
    destruct (normalize_row_texts float_repr true true r0) as (Hbs & Hcs).
    destruct (Hbs eq_refl) as [b Hb']. destruct (Hcs eq_refl) as [c Hc'].
    cbn [compose]. eauto 10. }
  split; (split; [done|split; [done|split; [done|]]]);
    (eapply Forall_impl; [exact Hrows|]); intros r (b & c & g & h & ? & ? & ? & ?);
    eauto 10.
Qed.

(** A frame with the same columns and some of the rows can be aggregated as
    well. *)
Lemma aggregable_rows (df_ df' : DataFrame) (col : string) :
  aggregable df_ col → columns df' = columns df_ →
  (∀ r, r ∈ rows df' → r ∈ rows df_) → aggregable df' col.
Proof.
  intros (Hb & Hc & Hcol & Hrows) Hcols Hsub. unfold aggregable. rewrite Hcols.
  split; [done|]. split; [done|]. split; [done|].
  rewrite Forall_forall in Hrows |- *. intros r Hr. by apply Hrows, Hsub.
Qed.

(** The frames the two tabs aggregate satisfy the condition of the cutoff
    table. *)
Lemma tabs_aggregable (float_repr : float → string) (fs : filesystem)
    (path : string) (f : filters) (df_ gate_df hd_df gated hdd : DataFrame) :
  load_data float_repr fs path = Ok df_ →
  split_modes df_ = Ok (gate_df, hd_df) →
  apply_filters f gate_df = Ok gated → apply_filters f hd_df = Ok hdd →
  aggregable gated "GATE Score" ∧ aggregable hdd "HD Score".
Proof.
  intros Hload Hsplit Hg Hh.
  rewrite split_modes_eq in Hsplit by (by eapply load_data_normalized).
  injection Hsplit as <- <-.
  apply apply_filters_Ok in Hg as (Hb & Hc & ->).
  apply apply_filters_Ok in Hh as (_ & _ & ->).
  cbn [columns rows] in *.
  destruct (load_data_aggregable _ _ _ _ Hload Hb Hc) as [Hag Hah].
  split.
  - apply (aggregable_rows df_); [done|done|]. cbn [rows]. intros r Hr.
    apply list_elem_of_filter in Hr as [_ Hr].
    apply elem_of_keep_first, list_elem_of_filter in Hr. tauto.
  - apply (aggregable_rows df_); [done|done|]. cbn [rows]. intros r Hr.
    apply list_elem_of_filter in Hr as [_ Hr].
    apply elem_of_keep_first, list_elem_of_filter in Hr. tauto.
Qed.

(** ** The page *)

Lemma groupby_no_rows (df_ : DataFrame) (by_ : list string) :
  rows df_ = [] → Forall (λ c, c ∈ columns df_) by_ → groupby df_ by_ = Ok [].
Proof.
  intros Hrows Hby. unfold groupby.
  rewrite (mapM_Ok_fmap _ (λ c, (λ r, cell r c) <$> rows df_)).
  2:{ intros c Hc. rewrite Forall_forall in Hby. by apply getitem_Ok, Hby. }
  rewrite bind_Ok, Hrows. reflexivity.
Qed.

(** The aggregates of a frame without rows are empty tables. *)
Lemma aggregates_no_rows (df_ : DataFrame) (col : string) :
  rows df_ = [] → "ME Branch" ∈ columns df_ → "Campus" ∈ columns df_ →
  col ∈ columns df_ →
  cutoff_table df_ col = Ok [] ∧ branch_mean df_ col = Ok [] ∧
  group_sizes df_ ["Campus"; "ME Branch"] = Ok [] ∧
  group_sizes df_ ["ME Branch"] = Ok [].
Proof.
  intros Hrows Hb Hc Hcol.
  unfold cutoff_table, branch_mean, group_sizes, select.
  rewrite !groupby_no_rows by (by repeat constructor).
  rewrite !bind_Ok, !getitem_Ok by done. done.
Qed.

(** A run of the whole script on the sample file ends normally. *)
Example app_sample_run :
  (app repr_unused sample_fs sample_session).2 = inr tt.
Proof. vm_compute. reflexivity. Qed.

(** The table under "Raw Data (after filters)" is drawn whatever the filters
    leave: with the mode "GATE only" and no branch selected the trace ends
    with a frame without rows and the closing caption. *)
Example app_raw_table :
  ∃ pre cols note,
    (app repr_unused sample_fs
         (mkSession "GATE only" (mkFilters [] ["Goa"; "Pilani"] "All branches") 25 20)).1
    = pre ++ [st_dataframe (mkDF cols []); st_caption note].
Proof.
  vm_compute.
  match goal with
  | |- ∃ pre cols note, ?l = _ =>
      exists (take (length l - 2) l)
  end.
  vm_compute. eexists _, _. reflexivity.
Qed.

(** C8. When the filters leave no row of a subset, its tab shows the header
    and the "no match" message and nothing else, and the aggregates of the
    filtered subset are empty tables, not errors. *)
Theorem tab_no_data (ui : session) (df_ out : DataFrame) :
  apply_filters (selection ui) df_ = Ok out → rows out = [] →
  tab_gate ui df_ =
    ([st_header "GATE Admissions Analysis";
      st_info "No GATE admissions match the current filters."], inr tt) ∧
  tab_hd ui df_ =
    ([st_header "BITS-HD Test Admissions Analysis";
      st_info "No BITS-HD test admissions match the current filters."], inr tt) ∧
  (∀ col, col ∈ columns out →
     cutoff_table out col = Ok [] ∧ branch_mean out col = Ok [] ∧
     group_sizes out ["Campus"; "ME Branch"] = Ok [] ∧
     group_sizes out ["ME Branch"] = Ok []).
Proof.
  intros Hf Hrows.
  assert (Hempty : empty out = true).
  { unfold empty. apply bool_decide_eq_true. by left. }
  split; [|split].
  - unfold tab_gate. rewrite Hf. cbn. by rewrite Hempty.
  - unfold tab_hd. rewrite Hf. cbn. by rewrite Hempty.
  - intros col Hcol. apply apply_filters_Ok in Hf as (Hb & Hc & ->).
    by apply aggregates_no_rows.
Qed.

Lemma tab_no_data_witness :
  tab_gate sample_session sample_split.1 =
    ([st_header "GATE Admissions Analysis";
      st_info "No GATE admissions match the current filters."], inr tt) ∧
  tab_hd sample_session sample_split.1 =
    ([st_header "BITS-HD Test Admissions Analysis";
      st_info "No BITS-HD test admissions match the current filters."], inr tt) ∧
  (∀ col, col ∈ columns (mkDF (columns sample_split.1) []) →
     cutoff_table (mkDF (columns sample_split.1) []) col = Ok [] ∧
     branch_mean (mkDF (columns sample_split.1) []) col = Ok [] ∧
     group_sizes (mkDF (columns sample_split.1) []) ["Campus"; "ME Branch"] = Ok [] ∧
     group_sizes (mkDF (columns sample_split.1) []) ["ME Branch"] = Ok []).
Proof.
  apply (tab_no_data sample_session sample_split.1 (mkDF (columns sample_split.1) [])).
  - by_compute.
  - reflexivity.
Defined.

(** C9. When the data file is missing, the script reports the error and
    stops: beyond the page configuration the error message is the only call
    it makes, and nothing is loaded or drawn. *)
Theorem app_missing_file (float_repr : float → string) (fs : filesystem)
    (ui : session) :
  fs !! DATA_PATH = None →
  app float_repr fs ui =
    ([set_page_config "BITS HD Admissions Analytics (2024)";
      st_error "Data file not found: bits_hd_2024_clean.json"], inl Stopped).
Proof.
  intros H. unfold app.
  destruct (decide (is_Some (fs !! DATA_PATH))) as [[raw Hraw]|Hfile];
    [congruence|reflexivity].
Qed.

Lemma app_missing_file_witness :
  app repr_unused ∅ sample_session =
    ([set_page_config "BITS HD Admissions Analytics (2024)";
      st_error "Data file not found: bits_hd_2024_clean.json"], inl Stopped).
Proof. apply (app_missing_file repr_unused ∅ sample_session). reflexivity. Defined.

(** * Part IV: further properties of the code *)

(** ** Whitespace *)













(** ** The survey file *)

Lemma survey_df_loaded : load_data repr_unused survey_fs DATA_PATH = Ok survey_df.
Proof. vm_compute. reflexivity. Qed.

Lemma survey_split_eq : split_modes survey_df = Ok survey_split.
Proof. vm_compute. reflexivity. Qed.

Lemma survey_gated_eq :
  apply_filters (selection survey_session) survey_split.1 = Ok survey_gated.
Proof. vm_compute. reflexivity. Qed.

Lemma survey_hdd_eq :
  apply_filters (selection survey_session) survey_split.2 = Ok survey_hdd.
Proof. vm_compute. reflexivity. Qed.

Example survey_sizes :
  (length (rows survey_df), length (rows survey_split.1), length (rows survey_split.2),
   length (rows survey_gated), length (rows survey_hdd)) = (6, 2, 2, 2, 2)%nat.
Proof. vm_compute. reflexivity. Qed.


Lemma survey_df_columns : "ME Branch" ∈ columns survey_df ∧ "Campus" ∈ columns survey_df.
Proof. split; by_compute. Qed.

Lemma survey_df_normalized : normalized survey_df.
Proof.
  apply (load_data_normalized repr_unused survey_fs DATA_PATH).
  exact survey_df_loaded.
Qed.

Lemma survey_split_pair : split_modes survey_df = Ok (survey_split.1, survey_split.2).
Proof. exact survey_split_eq. Qed.


Lemma survey_tabs_aggregable :
  aggregable survey_gated "GATE Score" ∧ aggregable survey_hdd "HD Score".
Proof.
  apply (tabs_aggregable repr_unused survey_fs DATA_PATH (selection survey_session)
           survey_df survey_split.1 survey_split.2).
  - exact survey_df_loaded.
  - exact survey_split_pair.
  - exact survey_gated_eq.
  - exact survey_hdd_eq.
Qed.

(** ** More on the loader *)



Lemma load_data_Ok_inv (float_repr : float → string) (fs : filesystem)
    (path : string) (df_ : DataFrame) :
  load_data float_repr fs path = Ok df_ →
  ∃ raw df0, fs !! path = Some raw ∧
    relabel strip (DataFrame_of_records raw) ≫= relabel rename = Ok df0 ∧
    "GATE Score" ∈ columns df0 ∧ "HD Core" ∈ columns df0 ∧ "HD SS" ∈ columns df0 ∧
    df_ = normalize_frame float_repr df0.
Proof.
  rewrite load_data_eq. intros H.
  destruct (fs !! path) as [raw|]; [|done]. cbn [from_option] in H.
  rewrite bind_Ok in H.
  destruct (relabel strip (DataFrame_of_records raw) ≫= relabel rename)
    as [df0|] eqn:Hrel; [|done].
  rewrite bind_Ok in H. repeat case_decide; try done. inv H.
  by exists raw, df0.
Qed.





Example load_data_no_hd_ss :
  load_data repr_unused no_hd_ss_fs DATA_PATH = Raise (KeyError "HD SS").
Proof. vm_compute. reflexivity. Qed.








(** ** More on the splitter *)

Lemma keep_first_filter {A} `{EqDecision A} (P : A → Prop) `{∀ x, Decision (P x)}
    (l : list A) :
  keep_first (filter P l) = filter P (keep_first l).
Proof.
  induction l as [|x l IH]; [reflexivity|].
  cbn [keep_first]. rewrite !filter_cons. destruct (decide (P x)) as [Hx|Hx].
  - cbn [keep_first]. rewrite IH, !list_filter_filter. f_equal.
    apply list_filter_iff. intros y. split; intros [? ?]; by split.
  - rewrite IH, list_filter_filter. apply list_filter_iff.
    intros y. split; [|by intros [? _]]. intros Hy. split; [done|]. by intros ->.
Qed.

Lemma list_filter_all {A} (P : A → Prop) `{∀ x, Decision (P x)} (l : list A) :
  Forall P l → filter P l = l.
Proof.
  induction 1 as [|x l Hx _ IH]; [reflexivity|].
  by rewrite filter_cons_True, IH.
Qed.

Lemma list_filter_none {A} (P : A → Prop) `{∀ x, Decision (P x)} (l : list A) :
  Forall (λ x, ¬ P x) l → filter P l = [].
Proof.
  induction 1 as [|x l Hx _ IH]; [reflexivity|].
  by rewrite filter_cons_False, IH.
Qed.

Lemma keep_first_NoDup {A} `{EqDecision A} (l : list A) : NoDup l → keep_first l = l.
Proof.
  induction 1 as [|x l Hx _ IH]; [reflexivity|].
  cbn [keep_first]. rewrite IH. f_equal. apply list_filter_all, Forall_forall.
  by intros y Hy ->.
Qed.

Lemma keep_first_idemp (l : list row) : keep_first (keep_first l) = keep_first l.
Proof. apply keep_first_NoDup, NoDup_keep_first. Qed.

Lemma length_filter_disjoint {A} (P Q : A → Prop) `{∀ x, Decision (P x)}
    `{∀ x, Decision (Q x)} (l : list A) :
  (∀ x, P x → Q x → False) →
  length (filter P l) + length (filter Q l) ≤ length l.
Proof.
  intros Hd. induction l as [|x l IH]; [done|].
  rewrite !filter_cons. destruct (decide (P x)), (decide (Q x)); cbn [length];
    try lia. exfalso. eauto.
Qed.

Lemma normalized_rows (df_ df' : DataFrame) :
  normalized df_ → columns df' = columns df_ →
  (∀ r, r ∈ rows df' → r ∈ rows df_) → normalized df'.
Proof.
  intros (Hg & Hh & Hrows) Hcols Hsub. unfold normalized. rewrite Hcols.
  split; [done|]. split; [done|].
  rewrite Forall_forall in Hrows |- *. intros r Hr. by apply Hrows, Hsub.
Qed.

Lemma Qclt_zero_irrefl (x : float) : x = 0%Qc → ¬ (0 < x)%Qc.
Proof. intros -> H. by apply Qclt_not_eq in H. Qed.

(** X4. The splitter never fails on a frame the loader returned; both
    subsets keep the columns of the frame, and together they have at most as
    many rows as the frame. *)
Theorem load_data_split_modes (float_repr : float → string) (fs : filesystem)
    (path : string) (df_ : DataFrame) :
  load_data float_repr fs path = Ok df_ →
  ∃ gate_df hd_df,
    split_modes df_ = Ok (gate_df, hd_df) ∧
    columns gate_df = columns df_ ∧ columns hd_df = columns df_ ∧
    length (rows gate_df) + length (rows hd_df) ≤ length (rows df_).
Proof.
  intros Hload. apply load_data_normalized in Hload.
  eexists _, _. split; [by apply split_modes_eq|]. cbn [columns rows].
  split; [done|]. split; [done|].
  etrans; [|apply (length_filter_disjoint
                     (λ r, (0 < gate_score r)%Qc)
                     (λ r, gate_score r = 0%Qc ∧ (0 < hd_score r)%Qc))].
  - apply Nat.add_le_mono; apply sublist_length, sublist_keep_first.
  - intros r Hp [Hz _]. by apply (Qclt_zero_irrefl _ Hz).
Qed.

Lemma load_data_split_modes_witness :
  ∃ gate_df hd_df,
    split_modes survey_df = Ok (gate_df, hd_df) ∧
    columns gate_df = columns survey_df ∧ columns hd_df = columns survey_df ∧
    length (rows gate_df) + length (rows hd_df) ≤ length (rows survey_df).
Proof.
  apply (load_data_split_modes repr_unused survey_fs DATA_PATH survey_df).
  exact survey_df_loaded.
Defined.

(** X5. Splitting a subset again changes nothing: the GATE subset is its own
    GATE subset and has no HD rows, the HD subset is its own HD subset and has
    no GATE rows. *)
Theorem split_modes_again (df_ gate_df hd_df : DataFrame) :
  normalized df_ → split_modes df_ = Ok (gate_df, hd_df) →
  split_modes gate_df = Ok (gate_df, mkDF (columns df_) []) ∧
  split_modes hd_df = Ok (mkDF (columns df_) [], hd_df).
Proof.
  intros Hn. rewrite split_modes_eq by done. intros [= <- <-].
  split.
  - rewrite split_modes_eq.
    2:{ apply (normalized_rows df_); [done|done|]. cbn [rows]. intros r.
        rewrite elem_of_keep_first, list_elem_of_filter. tauto. }
    cbn [columns rows]. rewrite <-!keep_first_filter, !list_filter_filter.
    rewrite keep_first_idemp. do 3 f_equal.
    + do 2 f_equal. apply list_filter_iff; intros ?; tauto.
    + rewrite keep_first_idemp. rewrite list_filter_none; [done|].
      apply Forall_forall. intros r _ [[Hz _] Hp]. by apply (Qclt_zero_irrefl _ Hz).
  - rewrite split_modes_eq.
    2:{ apply (normalized_rows df_); [done|done|]. cbn [rows]. intros r.
        rewrite elem_of_keep_first, list_elem_of_filter. tauto. }
    cbn [columns rows]. rewrite <-!keep_first_filter, !list_filter_filter.
    rewrite !keep_first_idemp. do 2 f_equal.
    + f_equal. rewrite list_filter_none; [done|].
      apply Forall_forall. intros r _ [Hp [Hz _]]. by apply (Qclt_zero_irrefl _ Hz).
    + do 2 f_equal. apply list_filter_iff; intros ?; tauto.
Qed.

Lemma split_modes_again_witness :
  split_modes survey_split.1 = Ok (survey_split.1, mkDF (columns survey_df) []) ∧
  split_modes survey_split.2 = Ok (mkDF (columns survey_df) [], survey_split.2).
Proof.
  apply (split_modes_again survey_df survey_split.1 survey_split.2).
  - exact survey_df_normalized.
  - exact survey_split_pair.
Defined.

(** X6. Filtering and splitting commute: the subsets of the filtered frame
    are the filtered subsets of the frame. *)
Theorem split_modes_apply_filters (f : filters) (df_ : DataFrame) :
  normalized df_ → "ME Branch" ∈ columns df_ → "Campus" ∈ columns df_ →
  apply_filters f df_ ≫= split_modes =
    split_modes df_ ≫= λ p,
      gated ← apply_filters f p.1; hdd ← apply_filters f p.2; Ok (gated, hdd).
Proof.
  intros Hn Hb Hc.
  rewrite apply_filters_eq, bind_Ok by done.
  rewrite (split_modes_eq df_), bind_Ok by done. cbn [fst snd].
  rewrite !apply_filters_eq, !bind_Ok by done. cbn [columns rows].
  rewrite split_modes_eq.
  2:{ apply (normalized_rows df_); [done|done|]. cbn [rows]. intros r.
      rewrite list_elem_of_filter. tauto. }
  cbn [columns rows]. rewrite <-!keep_first_filter, !list_filter_filter.
  do 3 f_equal; do 2 f_equal; apply list_filter_iff; intros ?; tauto.
Qed.

Lemma split_modes_apply_filters_witness :
  apply_filters pilani_filters survey_df ≫= split_modes =
    split_modes survey_df ≫= λ p,
      gated ← apply_filters pilani_filters p.1;
      hdd ← apply_filters pilani_filters p.2; Ok (gated, hdd).
Proof.
  apply (split_modes_apply_filters pilani_filters survey_df).
  - exact survey_df_normalized.
  - exact (proj1 survey_df_columns).
  - exact (proj2 survey_df_columns).
Defined.

(** ** More on the filter engine and the sidebar *)

Lemma getitem_Raise (df_ : DataFrame) (c : string) :
  c ∉ columns df_ → getitem df_ c = Raise (KeyError c).
Proof. intros H. unfold getitem. by rewrite decide_False. Qed.

(** X7. The filter engine fails only for a missing column, with
    [KeyError "ME Branch"] before [KeyError "Campus"]; otherwise it returns a
    frame with the same columns whose rows are rows of the input in their
    order, each with a string as branch and as campus. *)
Theorem apply_filters_columns (f : filters) (df_ : DataFrame) :
  ("ME Branch" ∉ columns df_ → apply_filters f df_ = Raise (KeyError "ME Branch")) ∧
  ("ME Branch" ∈ columns df_ → "Campus" ∉ columns df_ →
   apply_filters f df_ = Raise (KeyError "Campus")) ∧
  ("ME Branch" ∈ columns df_ → "Campus" ∈ columns df_ →
   ∃ out, apply_filters f df_ = Ok out ∧ columns out = columns df_ ∧
     rows out `sublist_of` rows df_ ∧
     ∀ r, r ∈ rows out →
       (∃ b, cell r "ME Branch" = VStr b) ∧ (∃ c, cell r "Campus" = VStr c)).
Proof.
  split; [|split].
  - intros Hb. unfold apply_filters. by rewrite getitem_Raise.
  - intros Hb Hc. unfold apply_filters.
    by rewrite (getitem_Ok _ "ME Branch"), bind_Ok, getitem_Raise.
  - intros Hb Hc. eexists. split; [by apply apply_filters_eq|]. cbn [columns rows].
    split; [done|]. split; [apply sublist_filter|].
    intros r Hr. apply list_elem_of_filter in Hr as [(H1 & H2 & _) _].
    apply list_elem_of_fmap in H1 as (b & -> & _).
    apply list_elem_of_fmap in H2 as (c & -> & _). eauto.
Qed.

Lemma apply_filters_columns_witness :
  ∃ out, apply_filters pilani_filters survey_df = Ok out ∧
    columns out = columns survey_df ∧
    rows out `sublist_of` rows survey_df ∧
    ∀ r, r ∈ rows out →
      (∃ b, cell r "ME Branch" = VStr b) ∧ (∃ c, cell r "Campus" = VStr c).
Proof.
  exact (proj2 (proj2 (apply_filters_columns pilani_filters survey_df))
           (proj1 survey_df_columns) (proj2 survey_df_columns)).
Defined.

(** X8. Two filter configurations can be applied in either order, applying
    one twice is applying it once, and the rows left are the rows matching
    both. *)
Theorem apply_filters_commute (f1 f2 : filters) (df_ : DataFrame) :
  "ME Branch" ∈ columns df_ → "Campus" ∈ columns df_ →
  apply_filters f1 df_ ≫= apply_filters f2 = apply_filters f2 df_ ≫= apply_filters f1 ∧
  apply_filters f1 df_ ≫= apply_filters f1 = apply_filters f1 df_ ∧
  ∃ out, apply_filters f1 df_ ≫= apply_filters f2 = Ok out ∧
         ∀ r, r ∈ rows out ↔ r ∈ rows df_ ∧ matches f1 r ∧ matches f2 r.
Proof.
  intros Hb Hc.
  rewrite (apply_filters_eq f1 df_), (apply_filters_eq f2 df_), !bind_Ok by done.
  rewrite !apply_filters_eq by done. cbn [columns rows].
  rewrite !list_filter_filter. split; [|split].
  - do 2 f_equal. apply list_filter_iff. intros r. tauto.
  - do 2 f_equal. apply list_filter_iff. intros r. tauto.
  - eexists. split; [reflexivity|]. cbn [rows]. intros r.
    rewrite list_elem_of_filter. tauto.
Qed.

Lemma apply_filters_commute_witness :
  apply_filters pilani_filters survey_df ≫= apply_filters (selection survey_session) =
    apply_filters (selection survey_session) survey_df ≫= apply_filters pilani_filters ∧
  apply_filters pilani_filters survey_df ≫= apply_filters pilani_filters =
    apply_filters pilani_filters survey_df ∧
  ∃ out, apply_filters pilani_filters survey_df ≫= apply_filters (selection survey_session)
           = Ok out ∧
         ∀ r, r ∈ rows out ↔
              r ∈ rows survey_df ∧ matches pilani_filters r ∧
              matches (selection survey_session) r.
Proof.
  apply (apply_filters_commute pilani_filters (selection survey_session) survey_df).
  - exact (proj1 survey_df_columns).
  - exact (proj2 survey_df_columns).
Defined.

Global Instance VStr_inj : Inj (=) (=) VStr.
Proof. by intros s t [= ->]. Qed.

Lemma mapM_as_str (vs : list value) (l : list string) :
  mapM as_str vs = Ok l → vs = VStr <$> l.
Proof.
  revert l. induction vs as [|v vs IH]; intros l H.
  - cbn in H. by inv H.
  - cbn [mapM] in H. destruct v; try done. cbn in H.
    destruct (mapM as_str vs) as [l'|] eqn:Hl; [|done]. cbn in H. inv H.
    cbn. f_equal. by apply IH.
Qed.

Lemma mapM_as_str_Ok (l : list string) : mapM as_str (VStr <$> l) = Ok l.
Proof.
  rewrite (mapM_fmap_Ok_fmap _ _ id); [by rewrite list_fmap_id|]. done.
Qed.

Lemma elem_of_keep_first_gen {A} `{EqDecision A} (l : list A) (x : A) :
  x ∈ keep_first l ↔ x ∈ l.
Proof.
  induction l as [|y l IH]; [done|]. cbn [keep_first].
  rewrite !elem_of_cons, list_elem_of_filter, IH.
  destruct (decide (x = y)); intuition congruence.
Qed.

Lemma NoDup_keep_first_gen {A} `{EqDecision A} (l : list A) : NoDup (keep_first l).
Proof.
  induction l as [|x l IH]; [constructor|]. cbn [keep_first].
  constructor.
  - rewrite list_elem_of_filter. intros [Hne _]. by apply Hne.
  - by apply NoDup_filter.
Qed.

Lemma elem_of_dropna_unique (s : list value) (v : value) :
  v ∈ dropna_unique s ↔ v ∈ s ∧ is_missing v = false.
Proof.
  unfold dropna_unique. rewrite elem_of_keep_first_gen, list_elem_of_filter. tauto.
Qed.

Lemma StronglySorted_str_lt (l : list string) :
  StronglySorted String.le l → NoDup l → StronglySorted str_lt l.
Proof.
  induction 1 as [|k l Hs IH Hall]; intros Hnd; [constructor|].
  apply NoDup_cons in Hnd as [Hk Hnd]. constructor; [by apply IH|].
  rewrite Forall_forall in Hall |- *. intros k' Hk'. split; [by apply Hall|].
  by intros ->.
Qed.

Lemma sorted_unique_Ok (df_ : DataFrame) (c : string) (l : list string) :
  sorted_unique df_ c = Ok l →
  c ∈ columns df_ ∧ StronglySorted str_lt l ∧
  (∀ s, s ∈ l ↔ ∃ r, r ∈ rows df_ ∧ cell r c = VStr s) ∧
  nunique df_ c = Ok (length l).
Proof.
  unfold sorted_unique, nunique. intros H.
  destruct (decide (c ∈ columns df_)) as [Hc|Hc];
    [|by rewrite getitem_Raise in H].
  rewrite getitem_Ok in H by done. rewrite getitem_Ok by done.
  rewrite bind_Ok in H. rewrite bind_Ok.
  destruct (mapM as_str _) as [l0|] eqn:Hl0; [|done]. rewrite bind_Ok in H.
  inv H. apply mapM_as_str in Hl0.
  split; [done|]. split; [|split].
  - apply StronglySorted_str_lt; [apply (StronglySorted_merge_sort _)|].
    rewrite merge_sort_Permutation.
    apply (NoDup_fmap_1 VStr). rewrite <-Hl0. apply NoDup_keep_first_gen.
  - intros s. rewrite merge_sort_Permutation.
    rewrite <-(list_elem_of_fmap_inj VStr), <-Hl0, elem_of_dropna_unique, list_elem_of_fmap.
    split.
    + intros [(r & Hr & Hin) _]. eauto.
    + intros (r & Hr & Hin). split; [|done]. eauto.
  - by rewrite Hl0, length_fmap, merge_sort_Permutation.
Qed.

Lemma text_column_sorted_unique (df_ : DataFrame) (c : string) :
  text_column df_ c → ∃ l, sorted_unique df_ c = Ok l.
Proof.
  intros [Hc Hrows]. unfold sorted_unique. rewrite getitem_Ok, bind_Ok by done.
  assert (H : ∃ l0, dropna_unique ((λ r, cell r c) <$> rows df_) = VStr <$> l0).
  { exists (text_of <$> dropna_unique ((λ r, cell r c) <$> rows df_)).
    rewrite <-list_fmap_compose. rewrite <-(list_fmap_id (dropna_unique _)) at 1.
    apply list_fmap_ext. intros i v Hv. apply list_elem_of_lookup_2 in Hv.
    apply elem_of_dropna_unique in Hv as [Hv _].
    apply list_elem_of_fmap in Hv as (r & -> & Hr).
    rewrite Forall_forall in Hrows. destruct (Hrows r Hr) as [s Hs].
    unfold cell. by rewrite Hs. }
  destruct H as [l0 ->]. rewrite mapM_as_str_Ok, bind_Ok. by eexists.
Qed.

Lemma load_data_text_column (float_repr : float → string) (fs : filesystem)
    (path : string) (df_ : DataFrame) (c : string) :
  load_data float_repr fs path = Ok df_ →
  c ∈ ["ME Branch"; "Campus"] → c ∈ columns df_ → text_column df_ c.
Proof.
  intros Hload Hin Hc. split; [done|].
  apply load_data_Ok_inv in Hload as (raw & df0 & _ & _ & _ & _ & _ & ->).
  assert (Hc0 : c ∈ columns df0).
  { revert Hc. unfold normalize_frame. cbn [columns]. case_decide; [done|].
    rewrite elem_of_app, list_elem_of_singleton. intros [?| ->]; [done|].
    rewrite !elem_of_cons in Hin. destruct Hin as [?|[?|Hnil]]; [done|done|].
    by apply elem_of_nil in Hnil. }
  cbn [normalize_frame rows]. apply Forall_fmap, Forall_forall. intros r0 _.
  cbn [compose].
  destruct (normalize_row_texts float_repr
              (bool_decide ("ME Branch" ∈ columns df0))
              (bool_decide ("Campus" ∈ columns df0)) r0) as [Hb Hc'].
  rewrite !elem_of_cons in Hin. destruct Hin as [->|[->|Hin]];
    [| |by apply elem_of_nil in Hin].
  - apply Hb. by apply bool_decide_eq_true.
  - apply Hc'. by apply bool_decide_eq_true.
Qed.





(** ** More on rounding, means and extremes *)

Lemma round_half_even_comp (q q' : Q) : q == q' → round_half_even q = round_half_even q'.
Proof.
  intros H. unfold round_half_even. rewrite <-(Qfloor_comp _ _ H).
  assert (Hc : Qcompare (q - inject_Z (Qfloor q)) (1 # 2) =
               Qcompare (q' - inject_Z (Qfloor q)) (1 # 2)).
  { apply Qcompare_comp; [|reflexivity].
    unfold Qminus. apply Qplus_comp; [exact H|reflexivity]. }
  by rewrite Hc.
Qed.

Lemma round_half_even_Z (z : Z) : round_half_even (inject_Z z) = z.
Proof.
  unfold round_half_even. rewrite Qfloor_Z.
  destruct (Qcompare_spec (inject_Z z - inject_Z z) (1 # 2)) as [H|H|H]; [|done|]; lra.
Qed.

Lemma round_half_even_range (q : Q) :
  (Qfloor q ≤ round_half_even q ≤ Qfloor q + 1)%Z.
Proof.
  unfold round_half_even.
  destruct (Qcompare _ _); [destruct (Z.even _)| |]; lia.
Qed.

Lemma round_half_even_mono (q q' : Q) :
  (q <= q')%Q → (round_half_even q ≤ round_half_even q')%Z.
Proof.
  intros Hle. pose proof (Qfloor_resp_le _ _ Hle) as Hf.
  destruct (decide (Qfloor q = Qfloor q')) as [Heq|Hne].
  - unfold round_half_even. rewrite <-Heq.
    destruct (Qcompare_spec (q - inject_Z (Qfloor q)) (1 # 2)) as [H|H|H];
      destruct (Qcompare_spec (q' - inject_Z (Qfloor q)) (1 # 2)) as [H'|H'|H'];
      try destruct (Z.even (Qfloor q)); try lia; lra.
  - pose proof (round_half_even_range q). pose proof (round_half_even_range q'). lia.
Qed.

Lemma Q2Qc_le (q q' : Q) : (q <= q')%Q → (Q2Qc q ≤ Q2Qc q')%Qc.
Proof. intros H. unfold Qcle. cbn [this Q2Qc]. by rewrite !Qred_correct. Qed.

Lemma Qmake_100_le (z z' : Z) : (z ≤ z')%Z → (z # 100 <= z' # 100)%Q.
Proof. intros H. unfold Qle. cbn. lia. Qed.

Lemma format_mean_mono (x y : float) : (x ≤ y)%Qc → (format_mean x ≤ format_mean y)%Qc.
Proof.
  intros H. unfold format_mean. apply Q2Qc_le, Qmake_100_le, round_half_even_mono.
  unfold Qcle in H. lra.
Qed.

Lemma format_mean_cents (z : Z) : format_mean (Q2Qc (z # 100)) = Q2Qc (z # 100).
Proof.
  unfold format_mean. do 2 f_equal.
  rewrite <-(round_half_even_Z z) at 2. apply round_half_even_comp.
  cbn [this Q2Qc]. rewrite Qred_correct, (Qmake_Qdiv z 100).
  change (inject_Z (Z.pos 100)) with 100%Q. field.
Qed.

Lemma format_mean_idemp (x : float) : format_mean (format_mean x) = format_mean x.
Proof. unfold format_mean at 2 3. apply format_mean_cents. Qed.

Lemma list_sum_bounds (l : list float) (a b : float) :
  (∀ x, x ∈ l → (a ≤ x)%Qc ∧ (x ≤ b)%Qc) →
  (a * Qc_of_Z (Z.of_nat (length l)) ≤ list_sum l)%Qc ∧
  (list_sum l ≤ b * Qc_of_Z (Z.of_nat (length l)))%Qc.
Proof.
  induction l as [|x l IH]; intros H.
  - cbn [length list_sum foldr]. change (Z.of_nat 0) with 0%Z.
    rewrite Z2Qc_inj_0, !Qcmult_0_r. split; apply Qcle_refl.
  - destruct IH as [IH1 IH2]; [intros y Hy; apply H; by right|].
    destruct (H x) as [Ha Hb]; [by left|].
    cbn [length list_sum foldr]. fold (list_sum l).
    rewrite Nat2Z.inj_succ, <-Z.add_1_r, Z2Qc_inj_add.
    rewrite Z2Qc_inj_1, !Qcmult_plus_distr_r, !Qcmult_1_r.
    rewrite (Qcplus_comm (a * _)), (Qcplus_comm (b * _)).
    split; by apply Qcplus_le_compat.
Qed.

Lemma Qc_of_nat_pos (n : nat) : n ≠ 0%nat → (0 < Qc_of_Z (Z.of_nat n))%Qc.
Proof.
  intros H. rewrite <-Z2Qc_inj_0. apply (proj1 (Z2Qc_inj_lt 0 (Z.of_nat n))). lia.
Qed.

(** The mean of a non-empty list lies between its least and its largest
    element. *)
Lemma mean_bounds (l : list float) :
  l ≠ [] → (list_min l ≤ mean l)%Qc ∧ (mean l ≤ list_max l)%Qc.
Proof.
  intros Hne. destruct (list_min_spec l Hne) as [_ Hmin].
  destruct (list_max_spec l Hne) as [_ Hmax].
  destruct (list_sum_bounds l (list_min l) (list_max l)) as [H1 H2]; [by auto|].
  assert (Hn : (0 < Qc_of_Z (Z.of_nat (length l)))%Qc).
  { apply Qc_of_nat_pos. by destruct l. }
  assert (Hnz : Qc_of_Z (Z.of_nat (length l)) ≠ 0%Qc).
  { intros Hz. by apply Qclt_not_eq in Hn. }
  unfold mean. split.
  - apply (Qcmult_le_mono_pos_r _ _ _ Hn).
    by rewrite (Qcmult_comm (_ / _)), Qcmult_div_r.
  - apply (Qcmult_le_mono_pos_r _ _ _ Hn).
    by rewrite (Qcmult_comm (_ / _)), Qcmult_div_r.
Qed.




(** X11. [format_mean] is idempotent and monotone, and leaves a number of
    at most two decimals as it is; a tie goes to the even neighbour. *)
Theorem format_mean_stable :
  (∀ x, format_mean (format_mean x) = format_mean x) ∧
  (∀ x y, (x ≤ y)%Qc → (format_mean x ≤ format_mean y)%Qc) ∧
  (∀ z : Z, format_mean (Q2Qc (z # 100)) = Q2Qc (z # 100)) ∧
  format_mean (Q2Qc 0.125) = Q2Qc 0.12 ∧ format_mean (Q2Qc 0.375) = Q2Qc 0.38 ∧
  format_mean (Q2Qc 75.456) = Q2Qc 75.46.
Proof.
  split; [exact format_mean_idemp|]. split; [exact format_mean_mono|].
  split; [exact format_mean_cents|].
  repeat split; apply Qc_is_canon; reflexivity.
Qed.

Lemma format_mean_stable_witness :
  (Q2Qc 0.125 ≤ Q2Qc 0.375)%Qc ∧
  (format_mean (Q2Qc 0.125) ≤ format_mean (Q2Qc 0.375))%Qc.
Proof.
  split; [by_compute|]. apply (proj1 (proj2 format_mean_stable)). by_compute.
Defined.


(** *** Whole-number scores *)






(** ** Grouping by any list of text columns *)

Lemma row_key_by (df_ : DataFrame) (by_ : list string) (r : row) :
  Forall (text_column df_) by_ → r ∈ rows df_ → row_key by_ r = Ok (key_by by_ r).
Proof.
  intros Hby Hr. unfold row_key, key_by. apply mapM_Ok_fmap. intros c Hc.
  rewrite Forall_forall in Hby. destruct (Hby c Hc) as [_ Hrows].
  rewrite Forall_forall in Hrows. destruct (Hrows r Hr) as [s Hs].
  unfold cell. by rewrite Hs.
Qed.

Lemma groupby_by (df_ : DataFrame) (by_ : list string) :
  Forall (text_column df_) by_ →
  groupby df_ by_ = Ok ((λ k, (k, rows_by df_ by_ k)) <$> keys_by df_ by_).
Proof.
  intros Hby. unfold groupby.
  rewrite (mapM_Ok_fmap _ (λ c, (λ r, cell r c) <$> rows df_)).
  2:{ intros c Hc. rewrite Forall_forall in Hby. apply getitem_Ok, (Hby c Hc). }
  rewrite bind_Ok.
  rewrite (mapM_Ok_fmap _ (key_by by_)) by (intros r Hr; by apply (row_key_by df_)).
  rewrite bind_Ok. cbv zeta. unfold keys_by. f_equal.
  apply list_fmap_ext. intros _ k _. f_equal. apply zip_fmap_filter.
Qed.

Lemma select_by (df_ : DataFrame) (col : string) (by_ : list string)
    (ks : list (list string)) :
  float_col df_ col →
  select df_ col ((λ k, (k, rows_by df_ by_ k)) <$> ks) =
    Ok ((λ k, (k, score_of col <$> rows_by df_ by_ k)) <$> ks).
Proof.
  intros [Hcol Hrows]. unfold select. rewrite getitem_Ok, bind_Ok by done.
  apply mapM_fmap_Ok_fmap. intros k _. cbn [fst snd].
  rewrite (mapM_Ok_fmap _ (score_of col)); [reflexivity|].
  intros r Hr. apply list_elem_of_filter in Hr as [_ Hr].
  rewrite Forall_forall in Hrows. destruct (Hrows r Hr) as [x Hx].
  unfold score_of, cell. by rewrite Hx.
Qed.

Lemma keys_by_facts (df_ : DataFrame) (by_ : list string) :
  NoDup (keys_by df_ by_) ∧ StronglySorted keys_lt (keys_by df_ by_) ∧
  ∀ k, k ∈ keys_by df_ by_ ↔ ∃ r, r ∈ rows df_ ∧ key_by by_ r = k.
Proof.
  unfold keys_by.
  assert (Hnd : NoDup (merge_sort keys_le (remove_dups (key_by by_ <$> rows df_)))).
  { rewrite merge_sort_Permutation. apply NoDup_remove_dups. }
  split; [done|]. split.
  - apply StronglySorted_keys_lt; [apply (StronglySorted_merge_sort _)|done].
  - intros k. rewrite merge_sort_Permutation, elem_of_remove_dups, list_elem_of_fmap.
    split; intros (r & H1 & H2); exists r; by split.
Qed.

Lemma rows_by_nonempty (df_ : DataFrame) (by_ : list string) (k : list string) :
  k ∈ keys_by df_ by_ ↔ rows_by df_ by_ k ≠ [].
Proof.
  destruct (keys_by_facts df_ by_) as (_ & _ & ->). unfold rows_by. split.
  - intros (r & Hr & Hk) Hnil.
    assert (Hin : r ∈ filter (λ r, key_by by_ r = k) (rows df_))
      by (by apply list_elem_of_filter).
    rewrite Hnil in Hin. by apply elem_of_nil in Hin.
  - intros Hne. destruct (filter _ _) as [|r l] eqn:Hf; [done|].
    assert (Hin : r ∈ filter (λ r, key_by by_ r = k) (rows df_))
      by (rewrite Hf; left).
    apply list_elem_of_filter in Hin as [? ?]. eauto.
Qed.

(** Every row is counted in exactly one group. *)
Lemma sum_group_lengths {A K} `{EqDecision K} (f : A → K) (ks : list K) (l : list A) :
  NoDup ks → (∀ x, x ∈ l → f x ∈ ks) →
  sum_list ((λ k, length (filter (λ x, f x = k) l)) <$> ks) = length l.
Proof.
  intros Hnd. induction l as [|x l IH]; intros Hks.
  - rewrite (list_fmap_ext _ (λ _, 0%nat) ks) by done.
    rewrite sum_list_fmap_const. cbn. lia.
  - cbn [length]. rewrite <-IH by (intros y Hy; apply Hks; by right).
    assert (Hx : f x ∈ ks) by (apply Hks; left).
    clear IH Hks. induction ks as [|k ks IHk]; [by apply elem_of_nil in Hx|].
    apply NoDup_cons in Hnd as [Hk Hnd]. cbn [fmap list_fmap sum_list].
    rewrite filter_cons. destruct (decide (f x = k)) as [Heq|Hne].
    + cbn [length]. subst k. unfold id.
      rewrite (list_fmap_ext (λ k, length (filter (λ y, f y = k) (x :: l)))
                 (λ k, length (filter (λ y, f y = k) l)) ks); [lia|].
      intros i k' Hk'. rewrite filter_cons_False; [done|]. intros Heq.
      apply Hk. rewrite Heq. by eapply list_elem_of_lookup_2.
    + apply elem_of_cons in Hx as [Hx|Hx]; [done|].
      rewrite IHk by done. unfold id. lia.
Qed.

Lemma aggregable_text (df_ : DataFrame) (col : string) :
  aggregable df_ col →
  text_column df_ "ME Branch" ∧ text_column df_ "Campus" ∧ float_col df_ col.
Proof.
  intros (Hb & Hc & Hcol & Hrows).
  split; [|split]; (split; [done|]); (eapply Forall_impl; [exact Hrows|]);
    intros r (b & c & x & ? & ? & ?); eauto.
Qed.





Global Instance mean_le_trans : Transitive mean_le.
Proof. intros a b c. unfold mean_le. apply Qcle_trans. Qed.

Global Instance mean_le_total : Total mean_le.
Proof.
  intros a b. unfold mean_le.
  destruct (Qclt_le_dec a.2 b.2); [left; by apply Qclt_le_weak|by right].
Qed.

Lemma group_sizes_by (df_ : DataFrame) (by_ : list string) :
  Forall (text_column df_) by_ →
  group_sizes df_ by_ =
    Ok ((λ k, (k, length (rows_by df_ by_ k))) <$> keys_by df_ by_).
Proof.
  intros Hby. unfold group_sizes. rewrite groupby_by, bind_Ok by done.
  by rewrite <-list_fmap_compose.
Qed.

Lemma branch_mean_by (df_ : DataFrame) (col : string) :
  text_column df_ "ME Branch" → float_col df_ col →
  branch_mean df_ col =
    Ok (merge_sort mean_le
          ((λ k, (k, format_mean (mean (score_of col <$> rows_by df_ ["ME Branch"] k))))
             <$> keys_by df_ ["ME Branch"])).
Proof.
  intros Ht Hf. unfold branch_mean.
  rewrite groupby_by, bind_Ok by (apply Forall_cons; split; [done|constructor]).
  rewrite (select_by _ _ ["ME Branch"]), bind_Ok by done. cbv zeta.
  by rewrite <-list_fmap_compose.
Qed.

(** X12. The group sizes list every key that occurs once, in strictly
    ascending order, with the number of its rows; no size is zero and the
    sizes add up to the number of rows of the frame. *)
Theorem group_sizes_counts (df_ : DataFrame) (by_ : list string) :
  Forall (text_column df_) by_ →
  ∃ t, group_sizes df_ by_ = Ok t ∧
    StronglySorted keys_lt t.*1 ∧
    (∀ k n, (k, n) ∈ t ↔
       n = length (filter (λ r, key_by by_ r = k) (rows df_)) ∧ (0 < n)%nat) ∧
    sum_list t.*2 = length (rows df_).
Proof.
  intros Hby. eexists. split; [by apply group_sizes_by|].
  destruct (keys_by_facts df_ by_) as (Hnd & Hsorted & Hkeys).
  rewrite <-!list_fmap_compose.
  split; [|split].
  - rewrite (list_fmap_ext _ id (keys_by df_ by_)) by done. by rewrite list_fmap_id.
  - intros k n. rewrite list_elem_of_fmap. fold (rows_by df_ by_ k). split.
    + intros (k' & [= -> ->] & Hk). split; [done|].
      apply rows_by_nonempty in Hk. destruct (rows_by df_ by_ k'); [done|cbn; lia].
    + intros [-> Hn]. exists k. split; [done|]. apply rows_by_nonempty.
      intros Hnil. rewrite Hnil in Hn. cbn in Hn. lia.
  - unfold compose. cbn [snd]. unfold rows_by. apply sum_group_lengths; [done|].
    intros r Hr. apply Hkeys. eauto.
Qed.

Lemma group_sizes_counts_witness :
  ∃ t, group_sizes survey_gated ["Campus"; "ME Branch"] = Ok t ∧
    StronglySorted keys_lt t.*1 ∧
    (∀ k n, (k, n) ∈ t ↔
       n = length (filter (λ r, key_by ["Campus"; "ME Branch"] r = k) (rows survey_gated)) ∧
       (0 < n)%nat) ∧
    sum_list t.*2 = length (rows survey_gated).
Proof.
  apply (group_sizes_counts survey_gated ["Campus"; "ME Branch"]).
  destruct (aggregable_text _ _ (proj1 survey_tabs_aggregable)) as (Hb & Hc & _).
  repeat (apply Forall_cons; split; [assumption|]). constructor.
Defined.



(** ** More on the cutoff table *)


Lemma cutoff_table_rows (df_ : DataFrame) (col : string) (c : cutoff) :
  c ∈ apply_format_mean <$> sort_by_key (stats_of df_ col <$> group_keys df_) →
  ∃ k, (∃ r, r ∈ rows df_ ∧ key_of r = k) ∧
       c = apply_format_mean (stats_of df_ col k) ∧
       group_scores df_ col k ≠ [].
Proof.
  intros Hc. apply list_elem_of_fmap in Hc as [c0 [-> Hc0]].
  unfold sort_by_key in Hc0. rewrite merge_sort_Permutation in Hc0.
  apply list_elem_of_fmap in Hc0 as [k [-> Hk]].
  destruct (group_keys_facts df_) as (_ & _ & Hkeys).
  apply Hkeys in Hk as (r & Hr & Hkr). exists k. split; [eauto|]. split; [done|].
  unfold group_scores. intros Hnil. apply fmap_nil_inv in Hnil.
  assert (Hin : r ∈ filter (λ r, key_of r = k) (rows df_))
    by (by apply list_elem_of_filter).
  rewrite Hnil in Hin. by apply elem_of_nil in Hin.
Qed.

Lemma format_mean_0 : format_mean 0 = 0%Qc.
Proof. apply Qc_is_canon. reflexivity. Qed.



(** X15. From the file to the tables: whatever the filters, both cutoff
    tables are computed without error, every minimum and maximum in them is
    positive, and no mean is negative. *)
Theorem tab_cutoffs_positive (float_repr : float → string) (fs : filesystem)
    (path : string) (f : filters) (df_ gate_df hd_df gated hdd : DataFrame) :
  load_data float_repr fs path = Ok df_ →
  split_modes df_ = Ok (gate_df, hd_df) →
  apply_filters f gate_df = Ok gated → apply_filters f hd_df = Ok hdd →
  ∃ gate_cutoff hd_cutoff,
    cutoff_table gated "GATE Score" = Ok gate_cutoff ∧
    cutoff_table hdd "HD Score" = Ok hd_cutoff ∧
    (∀ c, c ∈ gate_cutoff → (0 < c_min c)%Qc ∧ (0 < c_max c)%Qc ∧ (0 ≤ c_mean c)%Qc) ∧
    (∀ c, c ∈ hd_cutoff → (0 < c_min c)%Qc ∧ (0 < c_max c)%Qc ∧ (0 ≤ c_mean c)%Qc).
Proof.
  intros Hload Hsplit Hg Hh.
  destruct (tabs_aggregable _ _ _ _ _ _ _ _ _ Hload Hsplit Hg Hh) as [Hag Hah].
  rewrite split_modes_eq in Hsplit by (by eapply load_data_normalized).
  injection Hsplit as <- <-.
  apply apply_filters_Ok in Hg as (_ & _ & ->).
  apply apply_filters_Ok in Hh as (_ & _ & ->).
  eexists _, _. split; [by apply cutoff_table_eq|].
  split; [by apply cutoff_table_eq|].
  assert (Hpos : ∀ (df' : DataFrame) col c,
            (∀ r, r ∈ rows df' → (0 < score_of col r)%Qc) →
            c ∈ apply_format_mean <$> sort_by_key (stats_of df' col <$> group_keys df') →
            (0 < c_min c)%Qc ∧ (0 < c_max c)%Qc ∧ (0 ≤ c_mean c)%Qc).
  { intros df' col c Hrows Hc.
    destruct (cutoff_table_rows _ _ _ Hc) as (k & _ & -> & Hne).
    cbn [apply_format_mean stats_of agg_stats c_key c_min c_max c_mean c_count fst snd].
    destruct (list_min_spec _ Hne) as [Hmin _]. destruct (list_max_spec _ Hne) as [Hmax _].
    destruct (mean_bounds _ Hne) as [Hm _].
    assert (Hall : ∀ x, x ∈ group_scores df' col k → (0 < x)%Qc).
    { intros x Hx. apply list_elem_of_fmap in Hx as (r & -> & Hr).
      apply list_elem_of_filter in Hr as [_ Hr]. by apply Hrows. }
    split; [by apply Hall|]. split; [by apply Hall|].
    rewrite <-format_mean_0. apply format_mean_mono. etrans; [|exact Hm].
    apply Qclt_le_weak. by apply Hall. }
  split.
  - intros c Hc. refine (Hpos _ _ c _ Hc).
    cbn [rows]. intros r Hr. apply list_elem_of_filter in Hr as [_ Hr].
    apply elem_of_keep_first, list_elem_of_filter in Hr. tauto.
  - intros c Hc. refine (Hpos _ _ c _ Hc).
    cbn [rows]. intros r Hr. apply list_elem_of_filter in Hr as [_ Hr].
    apply elem_of_keep_first, list_elem_of_filter in Hr. tauto.
Qed.

Lemma tab_cutoffs_positive_witness :
  ∃ gate_cutoff hd_cutoff,
    cutoff_table survey_gated "GATE Score" = Ok gate_cutoff ∧
    cutoff_table survey_hdd "HD Score" = Ok hd_cutoff ∧
    (∀ c, c ∈ gate_cutoff → (0 < c_min c)%Qc ∧ (0 < c_max c)%Qc ∧ (0 ≤ c_mean c)%Qc) ∧
    (∀ c, c ∈ hd_cutoff → (0 < c_min c)%Qc ∧ (0 < c_max c)%Qc ∧ (0 ≤ c_mean c)%Qc).
Proof.
  apply (tab_cutoffs_positive repr_unused survey_fs DATA_PATH (selection survey_session)
           survey_df survey_split.1 survey_split.2 survey_gated survey_hdd).
  - exact survey_df_loaded.
  - exact survey_split_pair.
  - exact survey_gated_eq.
  - exact survey_hdd_eq.
Defined.

Example survey_cutoffs :
  fmap (M := result) (fmap (M := list) cutoff_view)
       (cutoff_table survey_gated "GATE Score") =
    Ok [ (["CS"; "Pilani"], 612, 612, 612, 1%nat);
         (["Mech"; "Pilani"], 455, 455, 455, 1%nat) ]%Q ∧
  fmap (M := result) (fmap (M := list) cutoff_view)
       (cutoff_table survey_hdd "HD Score") =
    Ok [ (["CS"; "Goa"], 212, 212, 212, 1%nat);
         (["SS"; "Hyderabad"], 305, 305, 305, 1%nat) ]%Q.
Proof. split; vm_compute; reflexivity. Qed.

(** ** Running the page *)

Lemma emit_run {A} (e : element) (f : unit → page A) (out : list element)
    (r : halt + A) :
  f tt = (out, r) → emit e ≫= f = (e :: out, r).
Proof. intros H. unfold emit, mbind, page_bind. by rewrite H. Qed.

Lemma lift_Ok_bind {A B} (a : A) (f : A → page B) : lift (Ok a) ≫= f = f a.
Proof. unfold lift, mbind, page_bind. by destruct (f a). Qed.

Lemma lift_Raise_bind {A B} (e : exn) (f : A → page B) :
  lift (Raise e) ≫= f = ([], inl (Uncaught e)).
Proof. reflexivity. Qed.

Lemma mret_bind {A B} (a : A) (f : A → page B) : mret a ≫= f = f a.
Proof. unfold mret, page_ret, mbind, page_bind. by destruct (f a). Qed.

Lemma page_bind_run {A B} (m : page A) (f : A → page B) (out : list element) (a : A) :
  m = (out, inr a) → m ≫= f = (out ++ (f a).1, (f a).2).
Proof. intros ->. unfold mbind, page_bind. by destruct (f a). Qed.

Lemma float_column_scores (df_ : DataFrame) (col : string) :
  float_col df_ col → float_column df_ col = Ok (scores df_ col).
Proof.
  intros [Hc Hrows]. unfold float_column. rewrite getitem_Ok, bind_Ok by done.
  apply mapM_fmap_Ok_fmap. intros r Hr. rewrite Forall_forall in Hrows.
  destruct (Hrows r Hr) as [x Hx]. unfold score_of, cell. by rewrite Hx.
Qed.

Lemma aggregable_tables (df_ : DataFrame) (col : string) :
  aggregable df_ col →
  ∃ t bm cb bc,
    float_column df_ col = Ok (scores df_ col) ∧
    cutoff_table df_ col = Ok t ∧ branch_mean df_ col = Ok bm ∧
    group_sizes df_ ["Campus"; "ME Branch"] = Ok cb ∧
    group_sizes df_ ["ME Branch"] = Ok bc.
Proof.
  intros Hagg. destruct (aggregable_text _ _ Hagg) as (Hb & Hc & Hf).
  eexists _, _, _, _. split; [by apply float_column_scores|].
  split; [by apply cutoff_table_eq|]. split; [by apply branch_mean_by|].
  split; apply group_sizes_by; repeat (apply Forall_cons; split; [done|]); constructor.
Qed.

Lemma empty_rows (df_ : DataFrame) :
  columns df_ ≠ [] → empty df_ = bool_decide (rows df_ = []).
Proof.
  intros Hc. unfold empty. apply bool_decide_ext. tauto.
Qed.

Lemma tab_gate_run (ui : session) (gate_df gated : DataFrame) :
  apply_filters (selection ui) gate_df = Ok gated → aggregable gated "GATE Score" →
  ∃ rest,
    tab_gate ui gate_df =
      (st_header "GATE Admissions Analysis" ::
         (if bool_decide (rows gated = []) then
            [st_info "No GATE admissions match the current filters."]
          else
            st_metric "Total GATE Entries" (MCount (length (rows gated))) ::
            st_metric "Average GATE Score"
              (MMean (format_mean (mean (scores gated "GATE Score")))) ::
            st_metric "Highest GATE Score" (MInt (int (list_max (scores gated "GATE Score")))) ::
            st_metric "Lowest GATE Score" (MInt (int (list_min (scores gated "GATE Score")))) ::
            rest),
       inr tt).
Proof.
  intros Hf Hagg.
  destruct (aggregable_tables _ _ Hagg) as (t & bm & cb & bc & Hs & Ht & Hbm & Hcb & Hbc).
  assert (He : empty gated = bool_decide (rows gated = [])).
  { apply empty_rows. destruct Hagg as [Hb _]. destruct (columns gated); [inv Hb|done]. }
  unfold tab_gate. case_bool_decide as Hr.
  - exists []. apply emit_run. rewrite Hf, lift_Ok_bind, He.
    reflexivity.
  - eexists. apply emit_run. rewrite Hf, lift_Ok_bind, He.
    rewrite Hs, lift_Ok_bind. do 8 apply emit_run.
    rewrite Ht, lift_Ok_bind. do 2 apply emit_run.
    rewrite Hbm, lift_Ok_bind. do 2 apply emit_run.
    rewrite Hcb, lift_Ok_bind. apply emit_run.
    rewrite Hbc, lift_Ok_bind. reflexivity.
Qed.

Lemma tab_hd_run (ui : session) (hd_df hdd : DataFrame) :
  apply_filters (selection ui) hd_df = Ok hdd → aggregable hdd "HD Score" →
  ∃ rest,
    tab_hd ui hd_df =
      (st_header "BITS-HD Test Admissions Analysis" ::
         (if bool_decide (rows hdd = []) then
            [st_info "No BITS-HD test admissions match the current filters."]
          else
            st_metric "Total HD Entries" (MCount (length (rows hdd))) ::
            st_metric "Average HD Score"
              (MMean (format_mean (mean (scores hdd "HD Score")))) ::
            st_metric "Highest HD Score" (MInt (int (list_max (scores hdd "HD Score")))) ::
            st_metric "Lowest HD Score" (MInt (int (list_min (scores hdd "HD Score")))) ::
            rest),
       inr tt).
Proof.
  intros Hf Hagg.
  destruct (aggregable_tables _ _ Hagg) as (t & bm & cb & bc & Hs & Ht & Hbm & Hcb & Hbc).
  assert (He : empty hdd = bool_decide (rows hdd = [])).
  { apply empty_rows. destruct Hagg as [Hb _]. destruct (columns hdd); [inv Hb|done]. }
  unfold tab_hd. case_bool_decide as Hr.
  - exists []. apply emit_run. rewrite Hf, lift_Ok_bind, He.
    reflexivity.
  - eexists. apply emit_run. rewrite Hf, lift_Ok_bind, He.
    rewrite Hs, lift_Ok_bind. do 8 apply emit_run.
    rewrite Ht, lift_Ok_bind. do 2 apply emit_run.
    rewrite Hbm, lift_Ok_bind. do 2 apply emit_run.
    rewrite Hcb, lift_Ok_bind. apply emit_run.
    rewrite Hbc, lift_Ok_bind. reflexivity.
Qed.

Lemma page_bind_then {A B} (m : page A) (f : A → page B) (out out' : list element)
    (a : A) (r : halt + B) :
  m = (out, inr a) → f a = (out', r) → m ≫= f = (out ++ out', r).
Proof. intros -> H. unfold mbind, page_bind. by rewrite H. Qed.

Lemma columns_nonempty (df_ : DataFrame) (c : string) : c ∈ columns df_ → columns df_ ≠ [].
Proof. intros H Hnil. rewrite Hnil in H. by apply elem_of_nil in H. Qed.

(** A complete run of the script: the calls it makes, in order. *)
Lemma app_run (float_repr : float → string) (fs : filesystem) (ui : session)
    (df : DataFrame) :
  load_data float_repr fs DATA_PATH = Ok df →
  "ME Branch" ∈ columns df → "Campus" ∈ columns df →
  ∃ gate_df hd_df bs cs combined tabg tabh t1 t2 t3 t4 t5 t6,
    split_modes df = Ok (gate_df, hd_df) ∧
    sorted_unique df "ME Branch" = Ok bs ∧ sorted_unique df "Campus" = Ok cs ∧
    apply_filters (selection ui) (raw_view (selected_mode ui) df gate_df hd_df)
      = Ok combined ∧
    tab_gate ui gate_df = (tabg, inr tt) ∧ tab_hd ui hd_df = (tabh, inr tt) ∧
    app float_repr fs ui =
      ([set_page_config t1; sidebar_title "Filters";
        sidebar_radio "Admission mode" ["All"; "GATE only"; "BITS-HD Test only"];
        sidebar_multiselect "ME / M.Pharm Branch" bs bs;
        sidebar_multiselect "Campus" cs cs;
        sidebar_markdown "---";
        sidebar_selectbox "Branch drilldown" ("All branches" :: bs);
        sidebar_caption t2; st_title t3; st_caption t4; st_caption t5;
        st_metric "Total Records" (MCount (length (rows df)));
        st_metric "Unique Branches" (MCount (length bs));
        st_metric "Unique Campuses" (MCount (length cs));
        st_metric "GATE vs HD Share" (MShare (length (rows gate_df)) (length (rows hd_df)))]
       ++ (if decide (branch_drill (selection ui) ≠ "All branches") then
             [st_info ("Branch drilldown active: " +:+ branch_drill (selection ui))]
           else [])
       ++ [st_tabs ["GATE Admissions"; "BITS-HD Admissions"]]
       ++ tabg ++ tabh
       ++ [st_markdown "---"; st_subheader "Raw Data (after filters)";
           st_dataframe combined; st_caption t6],
       inr tt).
Proof.
  intros Hload Hb Hc.
  pose proof (load_data_normalized _ _ _ _ Hload) as Hn.
  pose proof (split_modes_eq _ Hn) as Hsplit.
  set (gate_df := mkDF (columns df) _) in Hsplit.
  set (hd_df := mkDF (columns df) _) in Hsplit.
  destruct (text_column_sorted_unique df "ME Branch") as [bs Hbs].
  { apply (load_data_text_column _ _ _ _ _ Hload); [repeat constructor|done]. }
  destruct (text_column_sorted_unique df "Campus") as [cs Hcs].
  { apply (load_data_text_column _ _ _ _ _ Hload); [repeat constructor|done]. }
  destruct (sorted_unique_Ok _ _ _ Hbs) as (_ & _ & _ & Hnb).
  destruct (sorted_unique_Ok _ _ _ Hcs) as (_ & _ & _ & Hnc).
  assert (Hg : apply_filters (selection ui) gate_df =
               Ok (mkDF (columns df) (filter (matches (selection ui)) (rows gate_df))))
    by exact (apply_filters_eq _ gate_df Hb Hc).
  assert (Hh : apply_filters (selection ui) hd_df =
               Ok (mkDF (columns df) (filter (matches (selection ui)) (rows hd_df))))
    by exact (apply_filters_eq _ hd_df Hb Hc).
  destruct (tabs_aggregable _ _ _ _ _ _ _ _ _ Hload Hsplit Hg Hh) as [Hag Hah].
  destruct (tab_gate_run ui _ _ Hg Hag) as [restg Htg].
  destruct (tab_hd_run ui _ _ Hh Hah) as [resth Hth].
  assert (Hcomb : ∃ combined,
            apply_filters (selection ui) (raw_view (selected_mode ui) df gate_df hd_df)
              = Ok combined).
  { unfold raw_view. repeat case_decide; eexists;
      [exact (apply_filters_eq _ gate_df Hb Hc)|exact (apply_filters_eq _ hd_df Hb Hc)|
       exact (apply_filters_eq _ df Hb Hc)]. }
  destruct Hcomb as [combined Hcomb].
  assert (Hfile : is_Some (fs !! DATA_PATH)).
  { apply load_data_Ok_inv in Hload as (raw & _ & Hraw & _). eauto. }
  exists gate_df, hd_df, bs, cs, combined. eexists _, _, _, _, _, _, _, _.
  split; [exact Hsplit|]. split; [exact Hbs|]. split; [exact Hcs|].
  split; [exact Hcomb|]. split; [exact Htg|]. split; [exact Hth|].
  unfold app. apply emit_run. rewrite (decide_True (P := is_Some (fs !! DATA_PATH))) by exact Hfile.
  rewrite mret_bind.
  rewrite Hload, lift_Ok_bind, Hsplit, lift_Ok_bind. cbv zeta. cbn [fst snd].
  apply emit_run. rewrite Hbs, lift_Ok_bind, Hcs, lift_Ok_bind.
  do 10 apply emit_run. rewrite Hnb, lift_Ok_bind. apply emit_run.
  rewrite Hnc, lift_Ok_bind. do 2 apply emit_run.
  assert (Hraw : (if decide (selected_mode ui = "GATE only")
                  then apply_filters (selection ui) gate_df
                  else if decide (selected_mode ui = "BITS-HD Test only")
                       then apply_filters (selection ui) hd_df
                       else apply_filters (selection ui) df) = Ok combined).
  { rewrite <-Hcomb. unfold raw_view. by repeat case_decide. }
  destruct (decide (branch_drill (selection ui) ≠ "All branches")) as [Hd|Hd].
  - apply emit_run. apply emit_run.
    eapply page_bind_then; [exact Htg|]. eapply page_bind_then; [exact Hth|].
    do 2 apply emit_run. rewrite Hraw, lift_Ok_bind. apply emit_run. reflexivity.
  - rewrite mret_bind. apply emit_run.
    eapply page_bind_then; [exact Htg|]. eapply page_bind_then; [exact Hth|].
    do 2 apply emit_run. rewrite Hraw, lift_Ok_bind. apply emit_run. reflexivity.
Qed.





Example survey_metrics :
  ∃ avg rest,
    (tab_gate survey_session survey_split.1).1 =
      st_header "GATE Admissions Analysis" ::
      st_metric "Total GATE Entries" (MCount 2) ::
      st_metric "Average GATE Score" (MMean avg) ::
      st_metric "Highest GATE Score" (MInt 612) ::
      st_metric "Lowest GATE Score" (MInt 455) :: rest ∧
    (this avg == 533.5)%Q.
Proof. vm_compute. eexists _, _. split; reflexivity. Qed.




(** A file whose records carry no branch: the loader accepts it, the page
    fails at the first use of the column. *)
Example app_no_branch :
  let fs : filesystem :=
    {[ DATA_PATH := [ {[ "GATE Score" := VStr "41"; "HD Core" := VStr "0";
                         "HD SS" := VStr "0"; "Campus" := VStr "Goa" ]} ] ]} in
  (∃ df, load_data repr_unused fs DATA_PATH = Ok df) ∧
  app repr_unused fs survey_session =
    ([set_page_config "BITS HD Admissions Analytics (2024)"; sidebar_title "Filters"],
     inl (Uncaught (KeyError "ME Branch"))) ∧
  app repr_unused no_hd_ss_fs survey_session =
    ([set_page_config "BITS HD Admissions Analytics (2024)"],
     inl (Uncaught (KeyError "HD SS"))).
Proof.
  cbv zeta. split; [eexists; vm_compute; reflexivity|].
  split; vm_compute; reflexivity.
Qed.

Lemma app_last_two {A} (l : list A) (x y z w : A) :
  l ++ [x; y; z; w] = (l ++ [x; y]) ++ [z; w].
Proof. by rewrite <-app_assoc. Qed.

(** X18. A complete run ends with the raw-data table and the closing note.
    The table has the columns of the loaded frame and holds the matching rows
    of the GATE subset, of the HD subset or, for any other mode, of the whole
    frame: there, rows that are in neither subset are shown as well. *)
Theorem app_raw_data (float_repr : float → string) (fs : filesystem) (ui : session)
    (df : DataFrame) :
  load_data float_repr fs DATA_PATH = Ok df →
  "ME Branch" ∈ columns df → "Campus" ∈ columns df →
  ∃ gate_df hd_df pre combined note,
    split_modes df = Ok (gate_df, hd_df) ∧
    app float_repr fs ui = (pre ++ [st_dataframe combined; st_caption note], inr tt) ∧
    columns combined = columns df ∧
    rows combined =
      filter (matches (selection ui))
             (rows (raw_view (selected_mode ui) df gate_df hd_df)) ∧
    (selected_mode ui ≠ "GATE only" → selected_mode ui ≠ "BITS-HD Test only" →
     ∀ r, r ∈ rows df → matches (selection ui) r → r ∈ rows combined).
Proof.
  intros Hload Hb Hc.
  destruct (app_run float_repr fs ui df Hload Hb Hc)
    as (gate_df & hd_df & bs & cs & combined & tabg & tabh & t1 & t2 & t3 & t4 & t5 & t6 &
        Hsplit & _ & _ & Hcomb & _ & _ & Happ).
  exists gate_df, hd_df. eexists _, combined, t6. split; [exact Hsplit|].
  split.
  { rewrite Happ. f_equal. rewrite !app_assoc. apply app_last_two. }
  apply apply_filters_Ok in Hcomb as (_ & _ & ->). cbn [columns rows].
  assert (Hcols : columns (raw_view (selected_mode ui) df gate_df hd_df) = columns df).
  { rewrite split_modes_eq in Hsplit by (by eapply load_data_normalized).
    injection Hsplit as <- <-. unfold raw_view. by repeat case_decide. }
  split; [done|]. split; [done|].
  intros H1 H2 r Hr Hm. unfold raw_view. rewrite !decide_False by done.
  by apply list_elem_of_filter.
Qed.

Lemma app_raw_data_witness :
  ∃ gate_df hd_df pre combined note,
    split_modes survey_df = Ok (gate_df, hd_df) ∧
    app repr_unused survey_fs survey_session =
      (pre ++ [st_dataframe combined; st_caption note], inr tt) ∧
    columns combined = columns survey_df ∧
    rows combined =
      filter (matches (selection survey_session))
             (rows (raw_view (selected_mode survey_session) survey_df gate_df hd_df)) ∧
    (selected_mode survey_session ≠ "GATE only" →
     selected_mode survey_session ≠ "BITS-HD Test only" →
     ∀ r, r ∈ rows survey_df → matches (selection survey_session) r → r ∈ rows combined).
Proof.
  apply (app_raw_data repr_unused survey_fs survey_session survey_df).
  - exact survey_df_loaded.
  - exact (proj1 survey_df_columns).
  - exact (proj2 survey_df_columns).
Defined.

Lemma length_dropna_unique (s : list value) : length (dropna_unique s) ≤ length s.
Proof.
  unfold dropna_unique. etrans; [|apply (length_filter (λ v, is_missing v = false))].
  induction (filter _ s) as [|x l IH]; [done|]. cbn [keep_first length].
  pose proof (length_filter (λ y, y ≠ x) (keep_first l)). lia.
Qed.

Lemma nunique_le (df_ : DataFrame) (c : string) (n : nat) :
  nunique df_ c = Ok n → n ≤ length (rows df_).
Proof.
  unfold nunique, getitem. case_decide; [|done]. cbn. intros [= <-].
  etrans; [apply length_dropna_unique|]. by rewrite length_fmap.
Qed.

(** X19. The summary tiles agree with the file and the sidebar: "Total
    Records" is the number of records of the file, the two "Unique ..." tiles
    are the numbers of options of the two multiselects, the drill-down offers
    "All branches" before the branches, and none of these numbers, nor the two
    shares together, exceeds the number of records. *)
Theorem app_summary (float_repr : float → string) (fs : filesystem) (ui : session)
    (df : DataFrame) (raw : list row) :
  load_data float_repr fs DATA_PATH = Ok df → fs !! DATA_PATH = Some raw →
  "ME Branch" ∈ columns df → "Campus" ∈ columns df →
  ∃ bs cs g h pre post,
    sorted_unique df "ME Branch" = Ok bs ∧ sorted_unique df "Campus" = Ok cs ∧
    (app float_repr fs ui).1 =
      pre ++ [st_metric "Total Records" (MCount (length raw));
              st_metric "Unique Branches" (MCount (length bs));
              st_metric "Unique Campuses" (MCount (length cs));
              st_metric "GATE vs HD Share" (MShare g h)] ++ post ∧
    sidebar_multiselect "ME / M.Pharm Branch" bs bs ∈ pre ∧
    sidebar_multiselect "Campus" cs cs ∈ pre ∧
    sidebar_selectbox "Branch drilldown" ("All branches" :: bs) ∈ pre ∧
    g + h ≤ length raw ∧ length bs ≤ length raw ∧ length cs ≤ length raw.
Proof.
  intros Hload Hfs Hb Hc.
  destruct (app_run float_repr fs ui df Hload Hb Hc)
    as (gate_df & hd_df & bs & cs & combined & tabg & tabh & t1 & t2 & t3 & t4 & t5 & t6 &
        Hsplit & Hbs & Hcs & _ & _ & _ & Happ).
  assert (Hlen : length (rows df) = length raw).
  { apply load_data_Ok_inv in Hload as (raw' & df0 & Hfs' & Hrel & _ & _ & _ & ->).
    assert (raw' = raw) as -> by congruence.
    apply relabelled_rows in Hrel as [Hrows _]. cbn [normalize_frame rows].
    by rewrite length_fmap, Hrows, length_fmap. }
  exists bs, cs, (length (rows gate_df)), (length (rows hd_df)).
  eexists (take 11 (app float_repr fs ui).1), _.
  split; [done|]. split; [done|]. rewrite Happ. cbn [fst]. rewrite Hlen.
  split; [reflexivity|]. cbn [take app].
  split; [repeat constructor|]. split; [repeat constructor|].
  split; [repeat constructor|].
  destruct (sorted_unique_Ok _ _ _ Hbs) as (_ & _ & _ & Hnb).
  destruct (sorted_unique_Ok _ _ _ Hcs) as (_ & _ & _ & Hnc).
  apply nunique_le in Hnb, Hnc. rewrite Hlen in Hnb, Hnc.
  split; [|done]. rewrite <-Hlen.
  rewrite split_modes_eq in Hsplit by (by eapply load_data_normalized).
  injection Hsplit as <- <-. cbn [rows].
  etrans; [|apply (length_filter_disjoint
                     (λ r, (0 < gate_score r)%Qc)
                     (λ r, gate_score r = 0%Qc ∧ (0 < hd_score r)%Qc))].
  - apply Nat.add_le_mono; apply sublist_length, sublist_keep_first.
  - intros r Hp [Hz _]. by apply (Qclt_zero_irrefl _ Hz).
Qed.

Lemma app_summary_witness :
  ∃ bs cs g h pre post,
    sorted_unique survey_df "ME Branch" = Ok bs ∧
    sorted_unique survey_df "Campus" = Ok cs ∧
    (app repr_unused survey_fs survey_session).1 =
      pre ++ [st_metric "Total Records" (MCount (length survey_records));
              st_metric "Unique Branches" (MCount (length bs));
              st_metric "Unique Campuses" (MCount (length cs));
              st_metric "GATE vs HD Share" (MShare g h)] ++ post ∧
    sidebar_multiselect "ME / M.Pharm Branch" bs bs ∈ pre ∧
    sidebar_multiselect "Campus" cs cs ∈ pre ∧
    sidebar_selectbox "Branch drilldown" ("All branches" :: bs) ∈ pre ∧
    g + h ≤ length survey_records ∧ length bs ≤ length survey_records ∧
    length cs ≤ length survey_records.
Proof.
  apply (app_summary repr_unused survey_fs survey_session survey_df survey_records).
  - exact survey_df_loaded.
  - by_compute.
  - exact (proj1 survey_df_columns).
  - exact (proj2 survey_df_columns).
Defined.

(** ** The converter *)







Example survey_json_records :
  survey_json !! JSON_PATH =
    Some [ {[ "GATE Score" := VStr "612"; "ME Branch" := VStr "CS" ]};
           {[ "GATE Score" := VNone; "ME Branch" := VStr "Mech" ]} ].
Proof. by_compute. Qed.

Lemma load_data_same_file (float_repr : float → string) (fs fs' : filesystem)
    (path : string) :
  fs' !! path = fs !! path →
  load_data float_repr fs' path = load_data float_repr fs path.
Proof. intros H. unfold load_data. by rewrite H. Qed.

Lemma app_same_file (float_repr : float → string) (fs fs' : filesystem) (ui : session) :
  fs' !! DATA_PATH = fs !! DATA_PATH →
  app float_repr fs' ui = app float_repr fs ui.
Proof.
  intros H. unfold app. rewrite H, (load_data_same_file _ _ _ _ H). reflexivity.
Qed.

(** X21. The converter writes its own file and nothing else; the file of the
    dashboard is not created or changed, so a run of the dashboard is the
    same before and after, and still stops for a missing file. *)
Theorem main_leaves_dashboard (json_float : float → float) (csv : csv_files)
    (fs fs' : filesystem) (out : list string) :
  main json_float csv fs = Ok (fs', out) →
  is_Some (fs' !! JSON_PATH) ∧
  (∀ path, path ≠ JSON_PATH → fs' !! path = fs !! path) ∧
  fs' !! DATA_PATH = fs !! DATA_PATH ∧
  (∀ float_repr ui, app float_repr fs' ui = app float_repr fs ui) ∧
  (fs !! DATA_PATH = None →
   ∀ float_repr ui, (app float_repr fs' ui).2 = inl Stopped).
Proof.
  intros H. unfold main in H.
  destruct (csv !! CSV_PATH) as [df0|]; [|done]. cbn [from_option] in H.
  rewrite bind_Ok in H. cbv zeta in H.
  destruct (to_json_records _ _) as [recs|]; [|done]. rewrite bind_Ok in H.
  injection H as <- <-.
  assert (Hsame : (<[JSON_PATH := recs]> fs : filesystem) !! DATA_PATH = fs !! DATA_PATH).
  { by rewrite lookup_insert_ne. }
  split; [rewrite lookup_insert_eq; eauto|].
  split; [intros path Hne; by rewrite lookup_insert_ne|].
  split; [done|]. split; [intros; by apply app_same_file|].
  intros Hnone float_repr ui. rewrite (app_same_file _ fs) by done.
  unfold app. rewrite (decide_False (P := is_Some (fs !! DATA_PATH))).
  - reflexivity.
  - rewrite Hnone. by intros [? ?].
Qed.

Lemma main_leaves_dashboard_witness :
  is_Some (survey_json !! JSON_PATH) ∧
  (∀ path, path ≠ JSON_PATH → survey_json !! path = (∅ : filesystem) !! path) ∧
  survey_json !! DATA_PATH = (∅ : filesystem) !! DATA_PATH ∧
  (∀ float_repr ui, app float_repr survey_json ui = app float_repr ∅ ui) ∧
  ((∅ : filesystem) !! DATA_PATH = None →
   ∀ float_repr ui, (app float_repr survey_json ui).2 = inl Stopped).
Proof.
  apply (main_leaves_dashboard (λ x, x) survey_csv_files ∅ survey_json
           ["JSON file created: bits_hd_2024.json"]).
  by_compute.
Defined.

(** ** What the pattern extracts *)






